(** * Course marketplace: enrollment lifecycle and quiz-attempt scoring

    A shallow embedding of the rule-carrying parts of [models.py] and
    [routes.py]: the [Enrollment] and [Course] date arithmetic, the
    enrollment and payment routes, and the [take_quiz] route with its scoring
    loop.  The database is a record of tables; a table is the list of its
    rows in insertion order, an ORM object obtained from a query is the
    position of its row, and [db.session.commit()] is the returned store.

    Conventions of the model:
    - a [datetime] is an integer count of microseconds, [timedelta(days=d)]
      is [d] days of microseconds; the range limits of Python's [datetime]
      are not modelled;
    - a Python [float] ([Course.price], [QuizAttempt.score]) is an exact
      rational; rounding of the binary representation is not modelled;
    - every explicit [datetime.utcnow()] call of a modelled function is an
      argument of its own (the clock may move between two calls); the
      column defaults filled in at one commit share one reading;
    - [login_required] has let the request through: every route receives
      the logged-in user;
    - [flash] messages and template contexts are not part of the state. *)

From Stdlib Require Import ZArith QArith Lia DecimalString.
From Stdlib Require Import DecimalZ DecimalPos.
From stdpp Require Import base list strings.

Open Scope Z_scope.

(** ** Dates *)

Definition datetime := Z.

Definition microseconds_per_day : Z := 86400000000.

Definition timedelta (days : Z) : Z := days * microseconds_per_day.

(** ** models.py *)

Module User.
Record t := mk {
  id : Z;
  username : string;
  role : string
}.

Definition is_instructor (self : t) : bool :=
  String.eqb (role self) "instructor" || String.eqb (role self) "admin".
End User.

Module Course.
(** Columns that no modelled route reads (description, thumbnail, rating,
    capacity, deadline, category, level) are left out. *)
Record t := mk {
  id : Z;
  title : string;
  price : Q;
  instructor_id : Z;
  duration_days : Z
}.

Definition calculate_expiry_date (self : t) (enrollment_date : datetime)
  : datetime :=
  enrollment_date + timedelta (duration_days self).
End Course.

Module Enrollment.
Record t := mk {
  id : Z;
  student_id : Z;
  course_id : Z;
  enrolled_at : datetime;
  completed : bool;
  progress : Q;
  last_accessed : datetime;
  expires_at : option datetime;
  subscription_type : string;
  is_active : bool;
  subscription_renewed : option datetime
}.

(** [is_expired]: [utcnow] is the clock reading taken by the call. *)
Definition is_expired (self : t) (utcnow : datetime) : bool :=
  match expires_at self with
  | None => false
  | Some e => e <? utcnow
  end.

(** [renew_subscription] reads the clock up to three times: in the test
    ([t_test]), in the else branch ([t_else]) and for
    [subscription_renewed] ([t_renewed]). *)
Definition renew_subscription (self : t) (duration_days : Z)
    (t_test t_else t_renewed : datetime) : t :=
  let new_expiry :=
    match expires_at self with
    | Some e =>
        if t_test <? e then e + timedelta duration_days
        else t_else + timedelta duration_days
    | None => t_else + timedelta duration_days
    end in
  mk (id self) (student_id self) (course_id self) (enrolled_at self)
     (completed self) (progress self) (last_accessed self)
     (Some new_expiry) (subscription_type self) true (Some t_renewed).

(** [set_expiry_date]: [course] is the row behind [self.course]. *)
Definition set_expiry_date (self : t) (course : Course.t) : t :=
  mk (id self) (student_id self) (course_id self) (enrolled_at self)
     (completed self) (progress self) (last_accessed self)
     (Some (Course.calculate_expiry_date course (enrolled_at self)))
     (subscription_type self) (is_active self) (subscription_renewed self).

Definition has_access (self : t) (utcnow : datetime) : bool :=
  is_active self && negb (is_expired self utcnow).

(** [days_until_expiry]: [delta.days] of a [timedelta] is the floor of its
    length in days. *)
Definition days_until_expiry (self : t) (utcnow : datetime) : option Z :=
  match expires_at self with
  | None => None
  | Some e => Some (Z.max 0 ((e - utcnow) / microseconds_per_day))
  end.
End Enrollment.

Module Payment.
Record t := mk {
  id : Z;
  user_id : Z;
  course_id : Z;
  amount : Q;
  payment_id : option string;
  payment_method : string;
  status : string;
  created_at : datetime
}.

Definition set_status (self : t) (s : string) : t :=
  mk (id self) (user_id self) (course_id self) (amount self)
     (payment_id self) (payment_method self) s (created_at self).
End Payment.

Module Notification.
Record t := mk {
  id : Z;
  user_id : Z;
  title : string;
  message : string;
  is_read : bool;
  notification_type : string;
  related_id : option Z;
  created_at : datetime
}.
End Notification.

Module Quiz.
Record t := mk {
  id : Z;
  course_id : Z;
  title : string
}.
End Quiz.

Module Question.
Record t := mk {
  id : Z;
  quiz_id : Z;
  text : string;
  question_type : string;
  points : Z
}.
End Question.

Module Answer.
Record t := mk {
  id : Z;
  question_id : Z;
  text : string;
  is_correct : bool
}.
End Answer.

Module QuizAttempt.
Record t := mk {
  id : Z;
  quiz_id : Z;
  student_id : Z;
  score : Q;
  completed : bool;
  started_at : datetime;
  completed_at : option datetime
}.

(** The three assignments at the end of a submission. *)
Definition submit (self : t) (percentage_score : Q) (utcnow : datetime) : t :=
  mk (id self) (quiz_id self) (student_id self) percentage_score true
     (started_at self) (Some utcnow).
End QuizAttempt.

(** ** The store *)

Record DB := mkDB {
  courses : list Course.t;
  enrollments : list Enrollment.t;
  payments : list Payment.t;
  notifications : list Notification.t;
  quizzes : list Quiz.t;
  questions : list Question.t;
  answers : list Answer.t;
  attempts : list QuizAttempt.t
}.

Definition set_enrollments (d : DB) (l : list Enrollment.t) : DB :=
  mkDB (courses d) l (payments d) (notifications d) (quizzes d) (questions d)
       (answers d) (attempts d).

Definition set_payments (d : DB) (l : list Payment.t) : DB :=
  mkDB (courses d) (enrollments d) l (notifications d) (quizzes d)
       (questions d) (answers d) (attempts d).

Definition set_notifications (d : DB) (l : list Notification.t) : DB :=
  mkDB (courses d) (enrollments d) (payments d) l (quizzes d) (questions d)
       (answers d) (attempts d).

Definition set_attempts (d : DB) (l : list QuizAttempt.t) : DB :=
  mkDB (courses d) (enrollments d) (payments d) (notifications d) (quizzes d)
       (questions d) (answers d) l.

(** [query.filter_by(...).first()]: the position and the value of the first
    row that satisfies the filter. *)
Fixpoint first {A : Type} (f : A -> bool) (rows : list A) : option (nat * A) :=
  match rows with
  | [] => None
  | r :: rows' =>
      if f r then Some (O, r)
      else match first f rows' with
           | Some (i, x) => Some (S i, x)
           | None => None
           end
  end.

(** The value of an autoincrement primary key for the next inserted row. *)
Definition next_id (ids : list Z) : Z := 1 + foldr Z.max 0 ids.

(** [str(n)] of an integer, as an f-string renders it. *)
Definition str (n : Z) : string := NilZero.string_of_int (Z.to_int n).

(** The integer a primary-key lookup reads from a submitted string; a string
    that is not a decimal numeral names no row. *)
Definition pk_of_string (s : string) : option Z :=
  Z.of_int <$> NilZero.int_of_string s.

Definition Course_get (d : DB) (course_id : Z) : option Course.t :=
  snd <$> first (fun c => Course.id c =? course_id) (courses d).

Definition Quiz_get (d : DB) (quiz_id : Z) : option Quiz.t :=
  snd <$> first (fun q => Quiz.id q =? quiz_id) (quizzes d).

Definition Answer_get (d : DB) (key : string) : option Answer.t :=
  match pk_of_string key with
  | Some k => snd <$> first (fun a => Answer.id a =? k) (answers d)
  | None => None
  end.

(** [Enrollment.query.filter_by(student_id=..., course_id=...)] *)
Definition enrollment_of (student course : Z) (e : Enrollment.t) : bool :=
  (Enrollment.student_id e =? student) && (Enrollment.course_id e =? course).

(** [Payment.query.filter_by(user_id=..., course_id=..., status='pending')] *)
Definition pending_payment_of (user course : Z) (p : Payment.t) : bool :=
  (Payment.user_id p =? user) && (Payment.course_id p =? course)
  && String.eqb (Payment.status p) "pending".

(** [QuizAttempt.query.filter_by(quiz_id=..., student_id=..., completed=False)] *)
Definition open_attempt_of (quiz student : Z) (a : QuizAttempt.t) : bool :=
  (QuizAttempt.quiz_id a =? quiz) && (QuizAttempt.student_id a =? student)
  && negb (QuizAttempt.completed a).

(** ** routes.py: responses *)

Inductive response :=
| redirect (endpoint : string) (arg : Z)
| redirect_external (url : string) (code : Z)
| render_template (template : string)
| abort (code : Z).

(** ** routes.py: enrollment and payment *)

(** [enroll_course]: [t_first] and [t_second] are the clock readings of the
    two [is_expired()] calls, [utcnow] the one of the commit. *)
Definition enroll_course (t_first t_second utcnow : datetime)
    (current_user : User.t) (course_id : Z) (d : DB) : response * DB :=
  match Course_get d course_id with
  | None => (abort 404, d)
  | Some course =>
      let enrollment :=
        first (enrollment_of (User.id current_user) (Course.id course))
              (enrollments d) in
      let by_price :=
        if Qeq_bool (Course.price course) 0 then
          let enrollment :=
            Enrollment.mk (next_id (Enrollment.id <$> enrollments d))
              (User.id current_user) (Course.id course) utcnow false 0%Q
              utcnow None "unlimited" true None in
          let n1 := next_id (Notification.id <$> notifications d) in
          let notification :=
            Notification.mk n1 (User.id current_user) "Course Enrollment"
              ("You have successfully enrolled in " +:+ Course.title course
               +:+ ".")
              false "enrollment" (Some (Course.id course)) utcnow in
          let instructor_notification :=
            Notification.mk (n1 + 1) (Course.instructor_id course)
              "New Student Enrollment"
              (User.username current_user +:+ " has enrolled in your course "
               +:+ Course.title course +:+ ".")
              false "enrollment" (Some (Course.id course)) utcnow in
          (redirect "view_course" (Course.id course),
           set_notifications
             (set_enrollments d (enrollments d ++ [enrollment]))
             (notifications d ++ [notification; instructor_notification]))
        else (redirect "checkout" (Course.id course), d) in
      match enrollment with
      | Some (_, e) =>
          if Enrollment.is_expired e t_first
          then (redirect "renew_course" (Course.id course), d)
          else if negb (Enrollment.is_expired e t_second)
          then (redirect "view_course" (Course.id course), d)
          else by_price
      | None => by_price
      end
  end.

Definition checkout (current_user : User.t) (course_id : Z) (d : DB)
    : response * DB :=
  match Course_get d course_id with
  | None => (abort 404, d)
  | Some course =>
      match first (enrollment_of (User.id current_user) (Course.id course))
                  (enrollments d) with
      | Some _ => (redirect "view_course" (Course.id course), d)
      | None => (render_template "payment/checkout.html", d)
      end
  end.

(** [create_checkout_session]: the [try] block starts by evaluating the name
    [stripe], which routes.py neither imports nor assigns; the [NameError]
    is raised before the [Payment] of the block is built, and the [except]
    branch answers. *)
Definition create_checkout_session (current_user : User.t) (course_id : Z)
    (d : DB) : response * DB :=
  match Course_get d course_id with
  | None => (abort 404, d)
  | Some course => (redirect "view_course" (Course.id course), d)
  end.

Definition payment_success (utcnow : datetime) (current_user : User.t)
    (course_id : Z) (d : DB) : response * DB :=
  match Course_get d course_id with
  | None => (abort 404, d)
  | Some course =>
      match first (pending_payment_of (User.id current_user) (Course.id course))
                  (payments d) with
      | Some (i, payment) =>
          let enrollment :=
            Enrollment.mk (next_id (Enrollment.id <$> enrollments d))
              (User.id current_user) (Course.id course) utcnow false 0%Q
              utcnow None "unlimited" true None in
          (render_template "payment/success.html",
           set_enrollments
             (set_payments d
                (<[i := Payment.set_status payment "completed"]> (payments d)))
             (enrollments d ++ [enrollment]))
      | None => (render_template "payment/success.html", d)
      end
  end.

(** ** routes.py: taking a quiz *)

(** [request.form]: the submitted fields in order; [form_get] is
    [request.form.get], the value of the first field of that name. *)
Definition form := list (string * string).

Definition form_get (f : form) (key : string) : option string :=
  (fun kv => snd (snd kv)) <$> first (fun kv => String.eqb (fst kv) key) f.

(** [f'question_{question.id}'] *)
Definition field_name (question : Question.t) : string :=
  "question_" +:+ str (Question.id question).

(** [question.answers] *)
Definition question_answers (d : DB) (question : Question.t)
    : list Answer.t :=
  List.filter (fun a => Answer.question_id a =? Question.id question)
              (answers d).

(** [==] on two optional strings. *)
Definition option_string_eqb (x y : option string) : bool :=
  match x, y with
  | Some s, Some t => String.eqb s t
  | None, None => true
  | _, _ => false
  end.

(** The body of the scoring loop: the value of [score] after [question]. *)
Definition score_question (d : DB) (f : form) (score : Z)
    (question : Question.t) : Z :=
  if String.eqb (Question.question_type question) "multiple_choice" then
    match form_get f (field_name question) with
    | Some selected_answer_id =>
        if negb (String.eqb selected_answer_id "") then
          match Answer_get d selected_answer_id with
          | Some selected_answer =>
              if Answer.is_correct selected_answer
              then score + Question.points question
              else score
          | None => score
          end
        else score
    | None => score
    end
  else if String.eqb (Question.question_type question) "true_false" then
    let selected_value := form_get f (field_name question) in
    let correct_value :=
      (fun ia => Answer.text (snd ia))
        <$> first Answer.is_correct (question_answers d question) in
    if option_string_eqb selected_value correct_value
    then score + Question.points question
    else score
  else if String.eqb (Question.question_type question) "short_answer" then
    score
  else score.

(** [sum(q.points for q in questions)] *)
Definition total_points (questions : list Question.t) : Z :=
  fold_left (fun acc q => acc + Question.points q) questions 0.

Definition earned_points (d : DB) (f : form) (questions : list Question.t)
    : Z :=
  fold_left (score_question d f) questions 0.

(** [(score / total_points * 100) if total_points > 0 else 0] *)
Definition percentage_score (score total : Z) : Q :=
  if 0 <? total then (inject_Z score / inject_Z total * 100)%Q else 0%Q.

(** [Question.query.filter_by(quiz_id=quiz.id).all()] *)
Definition quiz_questions (d : DB) (quiz_id : Z) : list Question.t :=
  List.filter (fun q => Question.quiz_id q =? quiz_id) (questions d).

(** [take_quiz]: [validate_on_submit] is the outcome of
    [form.validate_on_submit()]; [t_started] and [t_completed] are the clock
    readings for [started_at] and [completed_at].  After the attempt is committed the route
    calls [calculate_progress(enrollment)], which writes no committed state
    and raises on a missing enrollment (an instructor who is not enrolled):
    that request ends in a 500 response with the attempt already stored. *)
Definition take_quiz (t_started t_completed : datetime) (current_user : User.t)
    (quiz_id : Z) (validate_on_submit : bool) (f : form) (d : DB)
    : response * DB :=
  match Quiz_get d quiz_id with
  | None => (abort 404, d)
  | Some quiz =>
      match Course_get d (Quiz.course_id quiz) with
      | None => (abort 404, d)
      | Some course =>
          let enrollment :=
            first (enrollment_of (User.id current_user) (Course.id course))
                  (enrollments d) in
          if negb (bool_decide (is_Some enrollment))
             && negb (User.is_instructor current_user)
          then (redirect "view_course" (Course.id course), d)
          else
            let '(attempt, d1) :=
              match first (open_attempt_of (Quiz.id quiz) (User.id current_user))
                          (attempts d) with
              | Some (i, _) => (i, d)
              | None =>
                  (length (attempts d),
                   set_attempts d
                     (attempts d ++
                      [QuizAttempt.mk (next_id (QuizAttempt.id <$> attempts d))
                         (Quiz.id quiz) (User.id current_user) 0%Q false
                         t_started None]))
              end in
            let questions := quiz_questions d1 (Quiz.id quiz) in
            if validate_on_submit then
              let score := earned_points d1 f questions in
              let total := total_points questions in
              let d2 :=
                set_attempts d1
                  (alter (fun a =>
                            QuizAttempt.submit a (percentage_score score total)
                                               t_completed)
                         attempt (attempts d1)) in
              match enrollment with
              | Some _ => (redirect "view_course" (Course.id course), d2)
              | None => (abort 500, d2)
              end
            else (render_template "courses/quiz.html", d1)
      end
  end.

(** ** Requests and traces *)

Inductive request :=
| EnrollCourse (t_first t_second utcnow : datetime) (current_user : User.t)
    (course_id : Z)
| Checkout (current_user : User.t) (course_id : Z)
| CreateCheckoutSession (current_user : User.t) (course_id : Z)
| PaymentSuccess (utcnow : datetime) (current_user : User.t) (course_id : Z)
| RenewSubscription (row : nat) (duration_days : Z)
    (t_test t_else t_renewed : datetime)
| TakeQuiz (t_started t_completed : datetime) (current_user : User.t)
    (quiz_id : Z)
    (validate_on_submit : bool) (f : form).

(** The store after a request.  [RenewSubscription row ...] calls the
    method on the enrollment at position [row]. *)
Definition handle (d : DB) (r : request) : DB :=
  match r with
  | EnrollCourse t1 t2 now u c => snd (enroll_course t1 t2 now u c d)
  | Checkout u c => snd (checkout u c d)
  | CreateCheckoutSession u c => snd (create_checkout_session u c d)
  | PaymentSuccess now u c => snd (payment_success now u c d)
  | RenewSubscription row dur t1 t2 t3 =>
      set_enrollments d
        (alter (fun e => Enrollment.renew_subscription e dur t1 t2 t3) row
               (enrollments d))
  | TakeQuiz t1 t2 u q v f => snd (take_quiz t1 t2 u q v f d)
  end.

Definition run (rs : list request) (d : DB) : DB := fold_left handle rs d.

Definition empty_db : DB := mkDB [] [] [] [] [] [] [] [].

(** ** The specification's scoring rule *)

(** The stored correct answer of a question: the first answer of the
    question that has [is_correct] set. *)
Definition stored_correct_answer (d : DB) (question : Question.t)
    : option Answer.t :=
  List.find (fun a => (Answer.question_id a =? Question.id question)
                      && Answer.is_correct a)
            (answers d).

(** Whether a question counts as correctly answered: a multiple-choice
    question when the answer looked up by the selected answer id is
    correct, a true/false question when the submitted text is the text of
    the stored correct answer, a short-answer question never. *)
Definition correctly_answered (d : DB) (f : form) (question : Question.t)
    : bool :=
  if String.eqb (Question.question_type question) "multiple_choice" then
    match form_get f (field_name question) with
    | Some selected =>
        match Answer_get d selected with
        | Some a => Answer.is_correct a
        | None => false
        end
    | None => false
    end
  else if String.eqb (Question.question_type question) "true_false" then
    match form_get f (field_name question),
          stored_correct_answer d question with
    | Some submitted, Some a => String.eqb submitted (Answer.text a)
    | _, _ => false
    end
  else false.

(** Whether the scoring loop adds points for a question: read off the loop
    body, run from a score of 0. *)
Definition awarded (d : DB) (f : form) (question : Question.t) : bool :=
  negb (score_question d f 0 question =? 0).

Definition sum_points (questions : list Question.t) : Z :=
  foldr (fun q acc => Question.points q + acc) 0 questions.

(** Sum of the points of the correctly answered questions, divided by the
    total points, times 100. *)
Definition spec_score (d : DB) (f : form) (questions : list Question.t) : Q :=
  (inject_Z (sum_points (List.filter (correctly_answered d f) questions))
   / inject_Z (sum_points questions) * 100)%Q.

(** The position of the attempt a [take_quiz] request works on: the first
    open attempt of the student on the quiz, or the row it inserts. *)
Definition attempt_position (d : DB) (quiz student : Z) : nat :=
  match first (open_attempt_of quiz student) (attempts d) with
  | Some (i, _) => i
  | None => length (attempts d)
  end.

(** Number of rows of a table that satisfy a filter. *)
Definition count {A : Type} (f : A -> bool) (rows : list A) : nat :=
  length (List.filter f rows).

(** At most one open attempt per (quiz, student). *)
Definition one_open_attempt (rows : list QuizAttempt.t) : Prop :=
  forall quiz student, (count (open_attempt_of quiz student) rows <= 1)%nat.

(** Active enrollments of a student in a course. *)
Definition active_enrollment_of (student course : Z) (e : Enrollment.t)
    : bool :=
  enrollment_of student course e && Enrollment.is_active e.

(** How one request may change the table of attempts: not at all, by
    submitting the first open attempt of a (quiz, student), by inserting an
    open attempt for a (quiz, student) that has none, or by inserting an
    attempt that is already completed. *)
Inductive attempts_step (rows : list QuizAttempt.t)
    : list QuizAttempt.t -> Prop :=
| step_same : attempts_step rows rows
| step_submit quiz student i a percentage utcnow :
    first (open_attempt_of quiz student) rows = Some (i, a) ->
    attempts_step rows
      (alter (fun a => QuizAttempt.submit a percentage utcnow) i rows)
| step_insert_open quiz student a :
    first (open_attempt_of quiz student) rows = None ->
    QuizAttempt.quiz_id a = quiz ->
    QuizAttempt.student_id a = student ->
    attempts_step rows (rows ++ [a])
| step_insert_completed a :
    QuizAttempt.completed a = true ->
    attempts_step rows (rows ++ [a]).

(** [QuizAttempt.query.filter_by(quiz_id=..., student_id=..., completed=True)] *)
Definition completed_attempt_of (quiz student : Z) (a : QuizAttempt.t)
    : bool :=
  (QuizAttempt.quiz_id a =? quiz) && (QuizAttempt.student_id a =? student)
  && QuizAttempt.completed a.

(** The attempt [take_quiz] inserts when the student has no open one. *)
Definition new_attempt (d : DB) (quiz student : Z) (t_started : datetime)
    : QuizAttempt.t :=
  QuizAttempt.mk (next_id (QuizAttempt.id <$> attempts d)) quiz student 0%Q
                 false t_started None.

(** ** routes.py: cancelling a payment *)

Definition payment_cancel (current_user : User.t) (course_id : Z) (d : DB)
    : response * DB :=
  match Course_get d course_id with
  | None => (abort 404, d)
  | Some course =>
      match first (pending_payment_of (User.id current_user) (Course.id course))
                  (payments d) with
      | Some (i, payment) =>
          (render_template "payment/cancel.html",
           set_payments d
             (<[i := Payment.set_status payment "failed"]> (payments d)))
      | None => (render_template "payment/cancel.html", d)
      end
  end.

(** ** routes.py: editing a quiz *)

Definition set_questions (d : DB) (l : list Question.t) : DB :=
  mkDB (courses d) (enrollments d) (payments d) (notifications d) (quizzes d)
       l (answers d) (attempts d).

Definition set_answers (d : DB) (l : list Answer.t) : DB :=
  mkDB (courses d) (enrollments d) (payments d) (notifications d) (quizzes d)
       (questions d) l (attempts d).

(** [Question.query.get(question_id)] and [Answer.query.get(answer_id)] on
    the integer of the URL, with the position of the row. *)
Definition Question_find (d : DB) (question_id : Z)
    : option (nat * Question.t) :=
  first (fun q => Question.id q =? question_id) (questions d).

Definition Answer_find (d : DB) (answer_id : Z) : option (nat * Answer.t) :=
  first (fun a => Answer.id a =? answer_id) (answers d).

(** What a decorated view answers: the redirect to the login page of the
    decorator, or the response of the view. *)
Inductive decorated :=
| to_login
| from_view (r : response).

(** [instructor_required]: [current_user] is [None] for a request that is
    not authenticated. *)
Definition instructor_required (view : User.t -> DB -> response * DB)
    (current_user : option User.t) (d : DB) : decorated * DB :=
  match current_user with
  | Some u =>
      if User.is_instructor u
      then (from_view (fst (view u d)), snd (view u d))
      else (to_login, d)
  | None => (to_login, d)
  end.

(** [edit_quiz]: [text], [question_type] and [points] are the data of the
    validated [QuestionForm]. *)
Definition edit_quiz (quiz_id : Z) (validate_on_submit : bool)
    (text question_type : string) (points : Z)
    (current_user : User.t) (d : DB) : response * DB :=
  match Quiz_get d quiz_id with
  | None => (abort 404, d)
  | Some quiz =>
      match Course_get d (Quiz.course_id quiz) with
      | None => (abort 404, d)
      | Some course =>
          if negb (Course.instructor_id course =? User.id current_user)
          then (abort 403, d)
          else if validate_on_submit then
            let question :=
              Question.mk (next_id (Question.id <$> questions d))
                          (Quiz.id quiz) text question_type points in
            let d1 := set_questions d (questions d ++ [question]) in
            let d2 :=
              if String.eqb question_type "true_false" then
                let a1 := next_id (Answer.id <$> answers d1) in
                set_answers d1
                  (answers d1 ++
                   [Answer.mk a1 (Question.id question) "True" false;
                    Answer.mk (a1 + 1) (Question.id question) "False" false])
              else d1 in
            (redirect "edit_question" (Question.id question), d2)
          else (render_template "courses/quiz.html", d)
      end
  end.

(** [edit_question]: [text] and [is_correct] are the data of the
    [AnswerForm]. *)
Definition edit_question (question_id : Z) (validate_on_submit : bool)
    (text : string) (is_correct : bool)
    (current_user : User.t) (d : DB) : response * DB :=
  match Question_find d question_id with
  | None => (abort 404, d)
  | Some (_, question) =>
      match Quiz_get d (Question.quiz_id question) with
      | None => (abort 404, d)
      | Some quiz =>
          match Course_get d (Quiz.course_id quiz) with
          | None => (abort 404, d)
          | Some course =>
              if negb (Course.instructor_id course =? User.id current_user)
              then (abort 403, d)
              else if validate_on_submit
                      && negb (String.eqb (Question.question_type question)
                                          "short_answer")
              then
                let answer :=
                  Answer.mk (next_id (Answer.id <$> answers d))
                            (Question.id question) text is_correct in
                (redirect "edit_question" (Question.id question),
                 set_answers d (answers d ++ [answer]))
              else (render_template "courses/quiz.html", d)
          end
      end
  end.

(** [delete_question]: the [answers] relationship cascades the delete to
    the answers of the question. *)
Definition delete_question (question_id : Z)
    (current_user : User.t) (d : DB) : response * DB :=
  match Question_find d question_id with
  | None => (abort 404, d)
  | Some (i, question) =>
      match Quiz_get d (Question.quiz_id question) with
      | None => (abort 404, d)
      | Some quiz =>
          match Course_get d (Quiz.course_id quiz) with
          | None => (abort 404, d)
          | Some course =>
              if negb (Course.instructor_id course =? User.id current_user)
              then (abort 403, d)
              else
                (redirect "edit_quiz" (Question.quiz_id question),
                 set_answers
                   (set_questions d (delete i (questions d)))
                   (List.filter
                      (fun a => negb (Answer.question_id a
                                      =? Question.id question))
                      (answers d)))
          end
      end
  end.

Definition delete_answer (answer_id : Z)
    (current_user : User.t) (d : DB) : response * DB :=
  match Answer_find d answer_id with
  | None => (abort 404, d)
  | Some (i, answer) =>
      match Question_find d (Answer.question_id answer) with
      | None => (abort 404, d)
      | Some (_, question) =>
          match Quiz_get d (Question.quiz_id question) with
          | None => (abort 404, d)
          | Some quiz =>
              match Course_get d (Quiz.course_id quiz) with
              | None => (abort 404, d)
              | Some course =>
                  if negb (Course.instructor_id course
                           =? User.id current_user)
                  then (abort 403, d)
                  else
                    (redirect "edit_question" (Answer.question_id answer),
                     set_answers d (delete i (answers d)))
              end
          end
      end
  end.

(** What stays of an enrollment row: its key, its student and course, its
    enrollment date, and its being active. *)
Definition same_enrollment (e e' : Enrollment.t) : Prop :=
  Enrollment.id e' = Enrollment.id e
  /\ Enrollment.student_id e' = Enrollment.student_id e
  /\ Enrollment.course_id e' = Enrollment.course_id e
  /\ Enrollment.enrolled_at e' = Enrollment.enrolled_at e
  /\ (Enrollment.is_active e = true -> Enrollment.is_active e' = true).

(** Every answer belongs to a question of the table. *)
Definition answers_refer_to_questions (d : DB) : Prop :=
  forall a, a ∈ answers d ->
            exists q, q ∈ questions d /\ Question.id q = Answer.question_id a.

(** The four routes that edit the content of a quiz. *)
Inductive quiz_edit : (User.t -> DB -> response * DB) -> Prop :=
| is_edit_quiz quiz_id v text question_type points :
    quiz_edit (edit_quiz quiz_id v text question_type points)
| is_edit_question question_id v text is_correct :
    quiz_edit (edit_question question_id v text is_correct)
| is_delete_question question_id :
    quiz_edit (delete_question question_id)
| is_delete_answer answer_id :
    quiz_edit (delete_answer answer_id).

(** ** utils.py *)

(** [calculate_progress]: [course_contents] is the count of the content
    rows of the enrollment's course; the result is the enrollment with its
    new [progress], which is also the value returned.  The comparisons are
    those of Python's [min] and [max], which keep their first argument
    unless the second is strictly smaller, respectively larger. *)
Definition calculate_progress (course_contents : Z)
    (enrollment : Enrollment.t) : Enrollment.t :=
  let progress :=
    if 0 <? course_contents then 0%Q else Enrollment.progress enrollment in
  let lower := if Qle_bool 100 progress then 100%Q else progress in
  let clamped := if Qle_bool lower 0 then 0%Q else lower in
  Enrollment.mk (Enrollment.id enrollment) (Enrollment.student_id enrollment)
    (Enrollment.course_id enrollment) (Enrollment.enrolled_at enrollment)
    (Enrollment.completed enrollment) clamped
    (Enrollment.last_accessed enrollment) (Enrollment.expires_at enrollment)
    (Enrollment.subscription_type enrollment)
    (Enrollment.is_active enrollment)
    (Enrollment.subscription_renewed enrollment).

(** [get_file_url]: [file_path] is [None] or a string; the empty string is
    falsy like [None]. *)
Definition get_file_url (file_path : option string) : option string :=
  match file_path with
  | None => None
  | Some path =>
      if String.eqb path "" then None
      else if String.prefix "/static/" path then Some path
      else if String.prefix "static/" path then Some ("/" +:+ path)
      else if String.prefix "uploads/" path then Some ("/static/" +:+ path)
      else Some ("/static/uploads/content/" +:+ path)
  end.

(** ** Sample data *)

Module Sample.
Definition alice : User.t := User.mk 2 "alice" "student".
Definition teacher : User.t := User.mk 7 "teacher" "instructor".

Definition free_course : Course.t := Course.mk 1 "Logic" 0%Q 7 365.
Definition paid_course : Course.t := Course.mk 2 "Proofs" 49%Q 7 365.

Definition alice_in_free_course : Enrollment.t :=
  Enrollment.mk 1 2 1 1000 false 0%Q 1000 None "unlimited" true None.

(** A quiz with a 1-point and a 3-point multiple-choice question. *)
Definition quiz_db : DB :=
  mkDB [free_course] [alice_in_free_course] [] []
       [Quiz.mk 1 1 "Week 1"]
       [Question.mk 1 1 "First" "multiple_choice" 1;
        Question.mk 2 1 "Second" "multiple_choice" 3]
       [Answer.mk 1 1 "A" true; Answer.mk 2 1 "B" false;
        Answer.mk 3 2 "C" true; Answer.mk 4 2 "D" false]
       [].

(** Wrong answer to the 1-point question, right answer to the 3-point one. *)
Definition only_second_right : form :=
  [("question_1", "2"); ("question_2", "3")].

(** A quiz with a 2-point multiple-choice and a 2-point short-answer
    question. *)
Definition explain_question : Question.t :=
  Question.mk 2 1 "Explain" "short_answer" 2.

Definition short_answer_db : DB :=
  mkDB [free_course] [alice_in_free_course] [] []
       [Quiz.mk 1 1 "Week 2"]
       [Question.mk 1 1 "Pick" "multiple_choice" 2; explain_question]
       [Answer.mk 1 1 "A" true; Answer.mk 2 1 "B" false]
       [].

Definition best_form : form :=
  [("question_1", "1"); ("question_2", "because")].

(** A true/false question as [edit_quiz] stores it: the answers "True"
    and "False" are both inserted with [is_correct=False]. *)
Definition fresh_true_false : Question.t :=
  Question.mk 1 1 "Is it so?" "true_false" 5.

Definition true_false_db : DB :=
  mkDB [free_course] [alice_in_free_course] [] []
       [Quiz.mk 1 1 "Week 3"]
       [fresh_true_false]
       [Answer.mk 1 1 "True" false; Answer.mk 2 1 "False" false]
       [].

Definition pending_payment : Payment.t :=
  Payment.mk 1 2 2 49%Q (Some "cs_1") "easyload" "pending" 2000.

Definition paying_db : DB :=
  mkDB [paid_course] [] [pending_payment] [] [] [] [] [].

Definition free_db : DB := mkDB [free_course] [] [] [] [] [] [] [].

Definition second_pending_payment : Payment.t :=
  Payment.mk 2 2 2 49%Q (Some "cs_2") "easyload" "pending" 2001.

(** A store with a paid course, no enrollment, and two pending payments of
    alice for the course. *)
Definition two_pending_db : DB :=
  mkDB [paid_course] [] [pending_payment; second_pending_payment]
       [] [] [] [] [].

(** Two loads of the success page. *)
Definition double_success : list request :=
  [PaymentSuccess 3000 alice 2; PaymentSuccess 3001 alice 2].

(** The four enrollment operations, the success page twice. *)
Definition enrollment_operations : list request :=
  [EnrollCourse 2500 2500 2501 alice 2; Checkout alice 2;
   PaymentSuccess 3000 alice 2;
   RenewSubscription 0 30 3500 3500 3500;
   PaymentSuccess 4000 alice 2].

(** A free enrollment, a renewal of 30 days at time 2000, and a second
    [enroll_course] whose two [is_expired()] calls read the clock at the
    expiry instant and one microsecond later. *)
Definition expiring_between_reads : list request :=
  [EnrollCourse 1000 1000 1001 alice 1;
   RenewSubscription 0 30 2000 2000 2000;
   EnrollCourse (2000 + 30 * 86400000000) (2001 + 30 * 86400000000)
                (2002 + 30 * 86400000000) alice 1].

Definition unlimited_enrollment : Enrollment.t := alice_in_free_course.

(** The store after alice's scored attempt on the first quiz. *)
Definition scored_db : DB :=
  snd (take_quiz 1500 1501 alice 1 true only_second_right quiz_db).

Definition scored_attempt : QuizAttempt.t :=
  QuizAttempt.mk 1 1 2 (300 # 4) true 1500 (Some 1501).

Definition running_enrollment : Enrollment.t :=
  Enrollment.mk 3 2 2 1000 false 0%Q 1000 (Some 5000) "monthly" true None.

(** The id of the correct answer of the second question, sent for both
    questions. *)
Definition same_answer_twice : form :=
  [("question_1", "3"); ("question_2", "3")].

Definition first_question : Question.t :=
  Question.mk 1 1 "First" "multiple_choice" 1.

Definition second_correct : Answer.t := Answer.mk 3 2 "C" true.
End Sample.

(** ** Queries *)

Section Queries.
Context {A : Type}.
Implicit Types (f : A -> bool) (rows : list A).

Lemma first_Some f rows i x :
  first f rows = Some (i, x) -> rows !! i = Some x /\ f x = true.
Proof.
  revert i. induction rows as [|r rows IH]; intros i; simpl; [done|].
  destruct (f r) eqn:Hr.
  - intros [= <- <-]. done.
  - destruct (first f rows) as [[j y]|]; [|done].
    intros [= <- <-]. simpl. by apply IH.
Qed.

Lemma first_Some_before f rows i x j y :
  first f rows = Some (i, x) -> rows !! j = Some y -> (j < i)%nat ->
  f y = false.
Proof.
  revert i j. induction rows as [|r rows IH]; intros i j; simpl; [done|].
  destruct (f r) eqn:Hr.
  - intros [= <- <-] _ ?. lia.
  - destruct (first f rows) as [[k z]|]; [|done].
    intros [= <- <-] Hj Hlt. destruct j as [|j]; simpl in Hj.
    + by injection Hj as <-.
    + eapply (IH k j); [done|done|lia].
Qed.

Lemma first_None f rows :
  first f rows = None <-> forall x, x ∈ rows -> f x = false.
Proof.
  induction rows as [|r rows IH]; simpl.
  - split; [|done]. intros _ x Hx. by apply elem_of_nil in Hx.
  - destruct (f r) eqn:Hr.
    + split; [done|]. intros H. rewrite H in Hr; [done|]. by left.
    + destruct (first f rows) as [[j y]|].
      * split; [done|]. intros H.
        assert (Some (j, y) = None) as Hc; [|done].
        apply IH. intros x Hx. apply H. by right.
      * split; [|done]. intros _ x Hx.
        apply elem_of_cons in Hx as [->|Hx]; [done|].
        by apply IH.
Qed.

Lemma first_is_Some f rows :
  is_Some (first f rows) <-> exists x, x ∈ rows /\ f x = true.
Proof.
  split.
  - intros [[i x] H]. apply first_Some in H as [H ?].
    exists x. split; [|done]. by eapply list_elem_of_lookup_2.
  - intros (x & Hx & Hf). destruct (first f rows) eqn:E; [done|].
    rewrite first_None in E. rewrite E in Hf; done.
Qed.

Lemma count_app f rows1 rows2 :
  count f (rows1 ++ rows2) = (count f rows1 + count f rows2)%nat.
Proof. unfold count. by rewrite List.filter_app, length_app. Qed.

Lemma count_first_None f rows :
  first f rows = None -> count f rows = O.
Proof.
  rewrite first_None. unfold count.
  induction rows as [|r rows IH]; intros H; simpl; [done|].
  rewrite (H r) by (by left). apply IH. intros x Hx. apply H. by right.
Qed.

Lemma count_alter_le f (h : A -> A) i rows :
  (forall x, f (h x) = false) ->
  (count f (alter h i rows) <= count f rows)%nat.
Proof.
  intros Hh. unfold count. revert i.
  induction rows as [|r rows IH]; intros [|i]; simpl; try done.
  - rewrite Hh. destruct (f r); simpl; lia.
  - destruct (f r); simpl; [apply le_n_S|]; apply IH.
Qed.
End Queries.

(** ** Scoring *)

Section Scoring.
Implicit Types (d : DB) (f : form) (questions : list Question.t).

Lemma score_question_cases d f question :
  (forall score, score_question d f score question
                 = score + Question.points question)
  \/ (forall score, score_question d f score question = score).
Proof.
  unfold score_question.
  destruct (String.eqb _ "multiple_choice").
  - destruct (form_get f _) as [key|]; [|by right].
    destruct (negb _); [|by right].
    destruct (Answer_get d key) as [a|]; [|by right].
    destruct (Answer.is_correct a); [by left|by right].
  - destruct (String.eqb _ "true_false").
    + simpl. destruct (option_string_eqb _ _); [by left|by right].
    + right. intros score. by destruct (String.eqb _ "short_answer").
Qed.

Lemma score_question_spec d f score question :
  score_question d f score question =
  if awarded d f question
  then score + Question.points question else score.
Proof.
  unfold awarded.
  destruct (score_question_cases d f question) as [H|H]; rewrite !H.
  - destruct (Z.eqb_spec (0 + Question.points question) 0); simpl; lia.
  - done.
Qed.

Lemma fold_score_question d f questions score :
  fold_left (score_question d f) questions score =
  score + sum_points (List.filter (awarded d f) questions).
Proof.
  revert score. induction questions as [|q questions IH]; intros score.
  - simpl. lia.
  - simpl. rewrite IH, score_question_spec.
    destruct (awarded d f q); simpl; lia.
Qed.

Lemma earned_points_spec d f questions :
  earned_points d f questions =
  sum_points (List.filter (awarded d f) questions).
Proof. unfold earned_points. rewrite fold_score_question. lia. Qed.

Lemma first_filter_find {A : Type} (g h : A -> bool) (rows : list A) :
  snd <$> first g (List.filter h rows)
  = List.find (fun x => h x && g x) rows.
Proof.
  induction rows as [|r rows IH]; simpl; [done|].
  destruct (h r); simpl.
  - destruct (g r); simpl; [done|]. rewrite <- IH.
    by destruct (first g (List.filter h rows)) as [[? ?]|].
  - done.
Qed.

Lemma stored_correct_answer_first d question :
  stored_correct_answer d question
  = snd <$> first Answer.is_correct (question_answers d question).
Proof.
  unfold stored_correct_answer, question_answers.
  by rewrite first_filter_find.
Qed.

(** The loop body agrees with the rule on every question but a true/false
    question for which neither a value was submitted nor a correct answer
    is stored. *)
Lemma score_question_correct d f score question :
  (Question.question_type question = "true_false" ->
   is_Some (form_get f (field_name question))
   \/ is_Some (stored_correct_answer d question)) ->
  score_question d f score question =
  if correctly_answered d f question
  then score + Question.points question else score.
Proof.
  intros Hgiven. unfold score_question, correctly_answered.
  destruct (String.eqb _ "multiple_choice").
  - destruct (form_get f _) as [key|]; [|done].
    destruct (String.eqb_spec key "") as [->|_]; simpl; [done|].
    by destruct (Answer_get d key) as [a|].
  - destruct (String.eqb_spec (Question.question_type question) "true_false")
      as [Htype|_].
    + rewrite stored_correct_answer_first in *. simpl.
      destruct (form_get f (field_name question)) as [submitted|],
               (first Answer.is_correct (question_answers d question))
                 as [[i a]|]; simpl; try done.
      destruct (Hgiven Htype) as [[? H]|[? H]]; discriminate H.
    + by destruct (String.eqb _ "short_answer").
Qed.

Lemma earned_points_correct d f questions :
  Forall (fun q =>
            Question.question_type q = "true_false" ->
            is_Some (form_get f (field_name q))
            \/ is_Some (stored_correct_answer d q)) questions ->
  earned_points d f questions =
  sum_points (List.filter (correctly_answered d f) questions).
Proof.
  intros Hgiven. unfold earned_points.
  assert (forall score,
             fold_left (score_question d f) questions score
             = score
               + sum_points (List.filter (correctly_answered d f) questions))
    as H; [|rewrite H; lia].
  induction Hgiven as [|q questions Hq _ IH]; intros score; simpl; [lia|].
  rewrite IH, (score_question_correct _ _ _ _ Hq).
  destruct (correctly_answered d f q); simpl; lia.
Qed.

Lemma fold_total_points questions acc :
  fold_left (fun acc q => acc + Question.points q) questions acc =
  acc + sum_points questions.
Proof.
  revert acc. induction questions as [|q questions IH]; intros acc; simpl.
  - lia.
  - rewrite IH. lia.
Qed.

Lemma total_points_spec questions :
  total_points questions = sum_points questions.
Proof. unfold total_points. rewrite fold_total_points. lia. Qed.

Lemma earned_points_set_attempts d rows f questions :
  earned_points (set_attempts d rows) f questions =
  earned_points d f questions.
Proof. reflexivity. Qed.

(** A question that is not counted as correct keeps its points out of
    the earned sum, when no question has negative points. *)
Lemma sum_points_filter_le (g : Question.t -> bool) questions q0 :
  q0 ∈ questions -> g q0 = false ->
  Forall (fun q => 0 <= Question.points q) questions ->
  sum_points (List.filter g questions) + Question.points q0
  <= sum_points questions.
Proof.
  intros Hin Hg Hpos. induction Hpos as [|q questions Hq Hpos IH].
  - by apply elem_of_nil in Hin.
  - assert (0 <= sum_points (List.filter g questions)
            <= sum_points questions) as Hmono.
    { clear -Hpos. induction Hpos as [|q questions Hq _ IH]; simpl; [lia|].
      destruct (g q); simpl; lia. }
    apply elem_of_cons in Hin as [->|Hin]; simpl.
    + rewrite Hg. lia.
    + specialize (IH Hin). destruct (g q); simpl; lia.
Qed.
End Scoring.

(** ** The effect of [take_quiz] on the table of attempts *)

Section TakeQuiz.
Implicit Types (d : DB) (f : form) (rows : list QuizAttempt.t).

Lemma Course_get_id d course_id course :
  Course_get d course_id = Some course -> Course.id course = course_id.
Proof.
  unfold Course_get.
  destruct (first _ (courses d)) as [[i c]|] eqn:E; [|done].
  intros [= <-]. apply first_Some in E as [_ E]. simpl. lia.
Qed.

Lemma Quiz_get_id d quiz_id quiz :
  Quiz_get d quiz_id = Some quiz -> Quiz.id quiz = quiz_id.
Proof.
  unfold Quiz_get.
  destruct (first _ (quizzes d)) as [[i c]|] eqn:E; [|done].
  intros [= <-]. apply first_Some in E as [_ E]. simpl. lia.
Qed.

Lemma alter_last {A : Type} (h : A -> A) (l : list A) (x : A) :
  alter h (length l) (l ++ [x]) = l ++ [h x].
Proof. induction l as [|y l IH]; simpl; [done|]. by rewrite <- IH. Qed.

Lemma open_attempt_of_spec quiz student a :
  open_attempt_of quiz student a = true <->
  QuizAttempt.quiz_id a = quiz /\ QuizAttempt.student_id a = student
  /\ QuizAttempt.completed a = false.
Proof.
  unfold open_attempt_of.
  rewrite !andb_true_iff, !Z.eqb_eq, negb_true_iff. tauto.
Qed.

Lemma take_quiz_attempts_step t_started t_completed u quiz_id v f d :
  attempts_step (attempts d)
                (attempts (snd (take_quiz t_started t_completed u quiz_id v f d))).
Proof.
  unfold take_quiz.
  destruct (Quiz_get d quiz_id) as [quiz|]; [|by constructor].
  destruct (Course_get d _) as [course|]; [|by constructor].
  destruct (negb _ && negb _); [by constructor|].
  destruct (first (open_attempt_of _ _) (attempts d)) as [[i a]|] eqn:E.
  - destruct v; [|by constructor].
    destruct (first (enrollment_of _ _) _); simpl;
      eapply step_submit; exact E.
  - destruct v.
    + destruct (first (enrollment_of _ _) _); simpl;
        rewrite alter_last; by apply step_insert_completed.
    + simpl. by eapply step_insert_open.
Qed.

Lemma handle_attempts_step d r :
  attempts_step (attempts d) (attempts (handle d r)).
Proof.
  destruct r; simpl; try apply take_quiz_attempts_step; try constructor.
  - unfold enroll_course.
    destruct (Course_get d _); [|constructor].
    destruct (Qeq_bool _ _); destruct (first _ _) as [[? e]|];
      try destruct (Enrollment.is_expired e t_first);
      try destruct (Enrollment.is_expired e t_second); apply step_same.
  - unfold checkout.
    destruct (Course_get d _); [|constructor].
    destruct (first _ _); constructor.
  - unfold create_checkout_session.
    destruct (Course_get d _); constructor.
  - unfold payment_success.
    destruct (Course_get d _); [|constructor].
    destruct (first _ _) as [[? ?]|]; constructor.
Qed.

Lemma attempts_step_completed rows rows' i a :
  attempts_step rows rows' ->
  rows !! i = Some a -> QuizAttempt.completed a = true ->
  rows' !! i = Some a.
Proof.
  intros Hstep Hi Ha. destruct Hstep as [|quiz student j b p t E|? ? b|b].
  - done.
  - apply first_Some in E as [Hj Hb].
    apply open_attempt_of_spec in Hb as (_ & _ & Hb).
    rewrite list_lookup_alter_ne; [done|].
    intros ->. congruence.
  - by apply lookup_app_l_Some.
  - by apply lookup_app_l_Some.
Qed.

Lemma attempts_step_one_open rows rows' :
  attempts_step rows rows' -> one_open_attempt rows ->
  one_open_attempt rows'.
Proof.
  intros Hstep Hinv quiz student.
  destruct Hstep as [|q s j b p t E|q s b E Hq Hs|b Hb].
  - apply Hinv.
  - etrans; [|apply (Hinv quiz student)].
    apply count_alter_le. intros x. unfold open_attempt_of. simpl.
    by rewrite andb_false_r.
  - rewrite count_app. unfold count at 2. simpl.
    destruct (open_attempt_of quiz student b) eqn:Hopen; simpl.
    + apply open_attempt_of_spec in Hopen as (Hq' & Hs' & _).
      rewrite <- Hq', <- Hs', Hq, Hs, (count_first_None _ _ E). lia.
    + specialize (Hinv quiz student). lia.
  - rewrite count_app. unfold count at 2. simpl.
    unfold open_attempt_of at 2. rewrite Hb, andb_false_r. simpl.
    specialize (Hinv quiz student). lia.
Qed.

(** What a submission that passes the gates stores. *)
Lemma take_quiz_submitted t_started t_completed u quiz_id f d quiz course :
  Quiz_get d quiz_id = Some quiz ->
  Course_get d (Quiz.course_id quiz) = Some course ->
  is_Some (first (enrollment_of (User.id u) (Course.id course))
                 (enrollments d))
  \/ User.is_instructor u = true ->
  exists a,
    attempts (snd (take_quiz t_started t_completed u quiz_id true f d))
      !! attempt_position d (Quiz.id quiz) (User.id u) = Some a
    /\ QuizAttempt.score a =
       percentage_score
         (earned_points d f (quiz_questions d (Quiz.id quiz)))
         (total_points (quiz_questions d (Quiz.id quiz)))
    /\ QuizAttempt.completed a = true
    /\ QuizAttempt.completed_at a = Some t_completed
    /\ QuizAttempt.quiz_id a = Quiz.id quiz
    /\ QuizAttempt.student_id a = User.id u.
Proof.
  intros Hquiz Hcourse Hgate. unfold take_quiz, attempt_position.
  rewrite Hquiz, Hcourse.
  assert (negb (bool_decide (is_Some
            (first (enrollment_of (User.id u) (Course.id course))
                   (enrollments d))))
          && negb (User.is_instructor u) = false) as ->.
  { destruct Hgate as [H | ->].
    - by rewrite (bool_decide_eq_true_2 _ H).
    - by rewrite andb_false_r. }
  destruct (first (open_attempt_of _ _) (attempts d)) as [[i a]|] eqn:E.
  - apply first_Some in E as [Hi Ha].
    apply open_attempt_of_spec in Ha as (Hq & Hs & _).
    exists (QuizAttempt.submit a
              (percentage_score
                 (earned_points d f (quiz_questions d (Quiz.id quiz)))
                 (total_points (quiz_questions d (Quiz.id quiz))))
              t_completed).
    split; [|done].
    destruct (first (enrollment_of _ _) _); simpl;
      by rewrite list_lookup_alter_eq, Hi.
  - eexists. split.
    + destruct (first (enrollment_of _ _) _); simpl;
        rewrite alter_last; by apply list_lookup_middle.
    + done.
Qed.
End TakeQuiz.

(** ** Quiz scoring: claims *)

Section ScoreClaims.
Import Sample.

Lemma percentage_score_pos score total :
  0 < total ->
  percentage_score score total
  = (inject_Z score / inject_Z total * 100)%Q.
Proof.
  intros H. unfold percentage_score.
  by rewrite (proj2 (Z.ltb_lt 0 total) H).
Qed.

Lemma ratio_le score score' total :
  score <= score' -> 0 < total ->
  (inject_Z score / inject_Z total * 100
   <= inject_Z score' / inject_Z total * 100)%Q.
Proof.
  intros Hle Hpos.
  apply Qmult_le_compat_r; [|done].
  apply Qmult_le_compat_r; [by rewrite <- Zle_Qle|].
  apply Qinv_le_0_compat. change 0%Q with (inject_Z 0).
  rewrite <- Zle_Qle. lia.
Qed.

Lemma ratio_lt_100 score total :
  score < total -> 0 < total ->
  (inject_Z score / inject_Z total * 100 < 100)%Q.
Proof.
  intros Hlt Hpos. destruct total as [|t|t]; try lia.
  unfold Qlt, Qdiv, Qmult, Qinv, inject_Z. simpl. lia.
Qed.

(** C1.  The recorded score is (sum of the points of the correctly answered
    questions) / (total points) * 100 for every submitted attempt on a quiz
    with positive total points in which each true/false question has a
    submitted value or a stored correct answer; on the quiz with a 1-point
    and a 3-point question, answering only the 3-point question correctly
    is recorded as 75.  At the failing input, a true/false question with
    no stored correct answer that the submission leaves out, the record is
    100 where the rule gives 0. *)
Theorem take_quiz_score :
  (forall t_started t_completed u quiz_id f d quiz course,
      Quiz_get d quiz_id = Some quiz ->
      Course_get d (Quiz.course_id quiz) = Some course ->
      is_Some (first (enrollment_of (User.id u) (Course.id course))
                     (enrollments d))
      \/ User.is_instructor u = true ->
      0 < sum_points (quiz_questions d (Quiz.id quiz)) ->
      Forall (fun q =>
                Question.question_type q = "true_false" ->
                is_Some (form_get f (field_name q))
                \/ is_Some (stored_correct_answer d q))
             (quiz_questions d (Quiz.id quiz)) ->
      exists a,
        attempts (snd (take_quiz t_started t_completed u quiz_id true f d))
          !! attempt_position d (Quiz.id quiz) (User.id u) = Some a
        /\ QuizAttempt.completed a = true
        /\ QuizAttempt.score a
           = spec_score d f (quiz_questions d (Quiz.id quiz)))
  /\ (exists a,
        attempts (snd (take_quiz 1500 1501 alice 1 true only_second_right
                         quiz_db))
        = [a]
        /\ (QuizAttempt.score a == 75)%Q
        /\ (spec_score quiz_db only_second_right (quiz_questions quiz_db 1)
            == 75)%Q)
  /\ (exists a,
        attempts (snd (take_quiz 1500 1501 alice 1 true [] true_false_db))
        = [a]
        /\ 0 < sum_points (quiz_questions true_false_db 1)
        /\ (QuizAttempt.score a == 100)%Q
        /\ (spec_score true_false_db [] (quiz_questions true_false_db 1)
            == 0)%Q).
Proof.
  split; [|split].
  - intros t_started t_completed u quiz_id f d quiz course
           Hquiz Hcourse Hgate Htotal Hgiven.
    destruct (take_quiz_submitted t_started t_completed u quiz_id f d quiz
                course Hquiz Hcourse Hgate)
      as (a & Ha & Hscore & Hdone & _).
    exists a. split; [done|]. split; [done|].
    rewrite Hscore, percentage_score_pos
      by (by rewrite total_points_spec).
    unfold spec_score.
    by rewrite (earned_points_correct _ _ _ Hgiven), total_points_spec.
  - eexists. split; [vm_compute; reflexivity|]. split; reflexivity.
  - eexists. split; [vm_compute; reflexivity|].
    split; [reflexivity|]. split; reflexivity.
Qed.

Lemma take_quiz_score_witness :
  Quiz_get quiz_db 1 = Some (Quiz.mk 1 1 "Week 1")
  /\ Course_get quiz_db 1 = Some free_course
  /\ 0 < sum_points (quiz_questions quiz_db 1)
  /\ exists a,
       attempts (snd (take_quiz 1500 1501 alice 1 true only_second_right quiz_db))
         !! attempt_position quiz_db 1 2 = Some a
       /\ QuizAttempt.completed a = true
       /\ QuizAttempt.score a
          = spec_score quiz_db only_second_right (quiz_questions quiz_db 1).
Proof.
  split; [reflexivity|]. split; [reflexivity|]. split; [reflexivity|].
  apply (proj1 take_quiz_score 1500 1501 alice 1 only_second_right quiz_db
           (Quiz.mk 1 1 "Week 1") free_course).
  - reflexivity.
  - reflexivity.
  - left. eexists. vm_compute. reflexivity.
  - reflexivity.
  - vm_compute. repeat constructor; discriminate.
Defined.

(** C10. The points of a short-answer question count in the total but are
    never earned: on a quiz that contains a short-answer question worth
    [p > 0], where no question has negative points (the question form
    accepts points from 1 up), every submitted attempt earns at most
    [T - p] points, is recorded with a score of at most
    [(T - p) / T * 100], and so with less than 100. *)
Theorem short_answer_caps_score t_started t_completed u quiz_id f d quiz course q0 :
  Quiz_get d quiz_id = Some quiz ->
  Course_get d (Quiz.course_id quiz) = Some course ->
  is_Some (first (enrollment_of (User.id u) (Course.id course))
                 (enrollments d))
  \/ User.is_instructor u = true ->
  q0 ∈ quiz_questions d (Quiz.id quiz) ->
  Question.question_type q0 = "short_answer" ->
  0 < Question.points q0 ->
  Forall (fun q => 0 <= Question.points q)
         (quiz_questions d (Quiz.id quiz)) ->
  let questions := quiz_questions d (Quiz.id quiz) in
  let T := total_points questions in
  let p := Question.points q0 in
  T = sum_points questions
  /\ earned_points d f questions <= T - p
  /\ exists a,
       attempts (snd (take_quiz t_started t_completed u quiz_id true f d))
         !! attempt_position d (Quiz.id quiz) (User.id u) = Some a
       /\ QuizAttempt.completed a = true
       /\ (QuizAttempt.score a <= inject_Z (T - p) / inject_Z T * 100)%Q
       /\ (QuizAttempt.score a < 100)%Q.
Proof.
  intros Hquiz Hcourse Hgate Hin Htype Hp Hpos questions T p.
  assert (awarded d f q0 = false) as Hq0.
  { unfold awarded, score_question. by rewrite Htype. }
  assert (earned_points d f questions <= T - p) as Hearned.
  { unfold T. rewrite earned_points_spec, total_points_spec.
    pose proof (sum_points_filter_le (awarded d f) questions q0
                  Hin Hq0 Hpos). unfold p. lia. }
  assert (0 <= earned_points d f questions) as Hnonneg.
  { rewrite earned_points_spec. clear -Hpos. fold questions in Hpos.
    induction Hpos as [|q qs Hq _ IH]; simpl; [lia|].
    destruct (awarded d f q); simpl; lia. }
  assert (0 < T) as HT by (unfold p in *; lia).
  split; [apply total_points_spec|]. split; [done|].
  destruct (take_quiz_submitted t_started t_completed u quiz_id f d quiz course
              Hquiz Hcourse Hgate) as (a & Ha & Hscore & Hdone & _).
  exists a. split; [done|]. split; [done|].
  fold questions in Hscore. fold T in Hscore.
  rewrite Hscore, percentage_score_pos by done. split.
  - by apply ratio_le.
  - apply ratio_lt_100; unfold p in *; lia.
Qed.

Lemma short_answer_caps_score_witness :
  explain_question ∈ quiz_questions short_answer_db 1
  /\ Forall (fun q => 0 <= Question.points q)
            (quiz_questions short_answer_db 1)
  /\ exists a,
       attempts (snd (take_quiz 1500 1501 alice 1 true best_form short_answer_db))
         !! attempt_position short_answer_db 1 2 = Some a
       /\ QuizAttempt.completed a = true
       /\ (QuizAttempt.score a <= inject_Z (4 - 2) / inject_Z 4 * 100)%Q
       /\ (QuizAttempt.score a < 100)%Q.
Proof.
  assert (explain_question ∈ quiz_questions short_answer_db 1) as Hin.
  { vm_compute. right. left. }
  assert (Forall (fun q => 0 <= Question.points q)
                 (quiz_questions short_answer_db 1)) as Hpos.
  { vm_compute. repeat constructor; discriminate. }
  split; [exact Hin|]. split; [exact Hpos|].
  refine (proj2 (proj2
    (short_answer_caps_score 1500 1501 alice 1 best_form short_answer_db
       (Quiz.mk 1 1 "Week 2") free_course explain_question
       _ _ _ Hin _ _ Hpos))).
  - reflexivity.
  - reflexivity.
  - left. eexists. vm_compute. reflexivity.
  - reflexivity.
  - reflexivity.
Defined.
End ScoreClaims.

(** ** True/false questions *)

Section TrueFalse.
Import Sample.

(** With a stored correct answer, a true/false question is awarded exactly
    when the submitted text is the text of the first correct answer. *)
Lemma true_false_awarded_iff d f score question i a :
  Question.question_type question = "true_false" ->
  first Answer.is_correct (question_answers d question) = Some (i, a) ->
  Question.points question <> 0 ->
  score_question d f score question = score + Question.points question
  <-> form_get f (field_name question) = Some (Answer.text a).
Proof.
  intros Htype Hfirst Hpoints. unfold score_question.
  rewrite Htype, Hfirst. simpl.
  destruct (form_get f (field_name question)) as [s|]; simpl.
  - destruct (String.eqb s (Answer.text a)) eqn:E.
    + apply String.eqb_eq in E as ->. done.
    + apply String.eqb_neq in E. split; [lia|]. intros [= ->]. done.
  - split; [lia|done].
Qed.

(** C9, at the failing input.  The true/false question has no answer
    marked correct (as [edit_quiz] creates it) and the submission leaves
    the question out: the comparison is between two missing values, the
    5 points are awarded and the attempt is recorded as 100. *)
Theorem true_false_unanswered_awarded :
  quiz_questions true_false_db 1 = [fresh_true_false]
  /\ first Answer.is_correct (question_answers true_false_db fresh_true_false)
     = None
  /\ form_get [] (field_name fresh_true_false) = None
  /\ score_question true_false_db [] 0 fresh_true_false = 5
  /\ exists a,
       attempts (snd (take_quiz 1500 1501 alice 1 true [] true_false_db)) = [a]
       /\ (QuizAttempt.score a == 100)%Q.
Proof.
  repeat split; try reflexivity.
  eexists. split; [vm_compute; reflexivity|]. reflexivity.
Qed.
End TrueFalse.

(** ** Attempts: one open attempt, completed attempts are final *)

Section Attempts.
Import Sample.

Lemma run_attempts_steps rs d (P : list QuizAttempt.t -> Prop) :
  (forall rows rows', attempts_step rows rows' -> P rows -> P rows') ->
  P (attempts d) -> P (attempts (run rs d)).
Proof.
  intros Hstep. unfold run. revert d.
  induction rs as [|r rs IH]; intros d Hd; simpl; [done|].
  apply IH. eapply Hstep; [apply handle_attempts_step|done].
Qed.

(** C7. Every state reached by [take_quiz] requests (and by the other
    requests, which leave attempts alone) from a state with at most one
    open attempt per (student, quiz) has at most one open attempt per
    (student, quiz); a request that finds an open attempt of the student
    on the quiz inserts no row, and a request that inserts a row found
    none. *)
Theorem take_quiz_one_open_attempt :
  (forall rs d,
      one_open_attempt (attempts d) ->
      one_open_attempt (attempts (run rs d)))
  /\ (forall t_started t_completed u quiz_id v f d quiz,
        Quiz_get d quiz_id = Some quiz ->
        let d' := snd (take_quiz t_started t_completed u quiz_id v f d) in
        (is_Some (first (open_attempt_of (Quiz.id quiz) (User.id u))
                        (attempts d)) ->
         length (attempts d') = length (attempts d))
        /\ (length (attempts d') <> length (attempts d) ->
            first (open_attempt_of (Quiz.id quiz) (User.id u)) (attempts d)
            = None
            /\ length (attempts d') = S (length (attempts d)))).
Proof.
  split.
  - intros rs d. apply run_attempts_steps.
    intros rows rows'. apply attempts_step_one_open.
  - intros t_started t_completed u quiz_id v f d quiz Hquiz d'. subst d'.
    unfold take_quiz. rewrite Hquiz.
    destruct (Course_get d _) as [course|]; [|done].
    destruct (negb _ && negb _); [done|].
    destruct (first (open_attempt_of _ _) (attempts d)) as [[i a]|] eqn:E.
    + destruct v; [|done].
      destruct (first (enrollment_of _ _) _); simpl;
        rewrite length_alter; done.
    + split; [by intros [? ?]|]. intros _. split; [done|].
      destruct v; [destruct (first (enrollment_of _ _) _)|]; simpl;
        rewrite ?length_alter, length_app; simpl; lia.
Qed.

Lemma take_quiz_one_open_attempt_witness :
  one_open_attempt (attempts quiz_db)
  /\ one_open_attempt
       (attempts (run [TakeQuiz 1400 1401 alice 1 false [];
                       TakeQuiz 1500 1501 alice 1 true only_second_right;
                       TakeQuiz 1600 1601 alice 1 false []] quiz_db)).
Proof.
  assert (one_open_attempt (attempts quiz_db)) as H.
  { intros quiz student. vm_compute. lia. }
  split; [exact H|].
  exact (proj1 take_quiz_one_open_attempt _ quiz_db H).
Defined.

(** C8. A completed attempt is final: whatever requests follow, the row
    of an attempt with [completed = True] stays as it is (score,
    completed, completed_at and all other columns); a submission only
    writes to the position of an attempt that was open or that the same
    request inserted. *)
Theorem completed_attempt_immutable :
  (forall rs d i a,
      attempts d !! i = Some a ->
      QuizAttempt.completed a = true ->
      attempts (run rs d) !! i = Some a)
  /\ (forall t_started t_completed u quiz_id f d i a,
        attempts d !! i = Some a ->
        QuizAttempt.completed a = true ->
        attempts (snd (take_quiz t_started t_completed u quiz_id true f d)) !! i = Some a)
  /\ (forall d quiz student,
        match attempts d !! attempt_position d quiz student with
        | Some a => QuizAttempt.completed a = false
        | None => True
        end).
Proof.
  split; [|split].
  - intros rs d i a Hi Ha.
    apply (run_attempts_steps rs d (fun rows => rows !! i = Some a));
      [|done].
    intros rows rows' Hstep Hrows.
    by eapply attempts_step_completed.
  - intros t_started t_completed u quiz_id f d i a Hi Ha.
    eapply attempts_step_completed; [|done|done].
    apply take_quiz_attempts_step.
  - intros d quiz student. unfold attempt_position.
    destruct (first _ (attempts d)) as [[i a]|] eqn:E.
    + apply first_Some in E as [-> E].
      by apply open_attempt_of_spec in E as (_ & _ & E).
    + by rewrite lookup_ge_None_2.
Qed.

Lemma completed_attempt_immutable_witness :
  attempts scored_db !! O = Some scored_attempt
  /\ QuizAttempt.completed scored_attempt = true
  /\ attempts (run [TakeQuiz 1600 1601 alice 1 true [("question_1", "1")];
                    TakeQuiz 1700 1701 alice 1 true []] scored_db) !! O
     = Some scored_attempt.
Proof.
  split; [reflexivity|]. split; [reflexivity|].
  apply (proj1 completed_attempt_immutable); reflexivity.
Defined.
End Attempts.

(** ** Renewal *)

Section Renewal.
Import Sample.

(** C2 as stated fails on an enrollment without an expiry date, which
    [is_expired] reports as not expired: there is no old [expires_at] to
    extend, and renewal sets [expires_at] to the current time plus the
    duration. *)
Lemma renew_subscription_unlimited_counterexample :
  Enrollment.is_expired unlimited_enrollment 2000 = false
  /\ Enrollment.expires_at
       (Enrollment.renew_subscription unlimited_enrollment 30 2000 2000 2000)
     = Some (2000 + timedelta 30)
  /\ ~ (exists old,
          Enrollment.expires_at unlimited_enrollment = Some old
          /\ Enrollment.expires_at
               (Enrollment.renew_subscription unlimited_enrollment 30
                  2000 2000 2000)
             = Some (old + timedelta 30)).
Proof.
  split; [reflexivity|]. split; [reflexivity|].
  intros (old & Hold & _). discriminate Hold.
Qed.

(** C2, amended.  [renew_subscription(d)] on an enrollment whose
    [expires_at] is set and still ahead of the clock sets [expires_at] to
    the old value plus [d] days; on an expired enrollment, and on one with
    no expiry date, it sets [expires_at] to the current time plus [d]
    days.  With one clock reading for the call this is the later of now
    and the current expiry (now, when there is none) plus [d] days, and an
    enrollment with an expiry date that is not expired gets the old expiry
    plus [d] days. *)
Theorem renew_subscription_expiry e days t_test t_else t_renewed :
  let e' := Enrollment.renew_subscription e days t_test t_else t_renewed in
  (forall old,
      Enrollment.expires_at e = Some old -> t_test < old ->
      Enrollment.expires_at e' = Some (old + days * 86400000000))
  /\ (Enrollment.is_expired e t_test = true ->
      Enrollment.expires_at e' = Some (t_else + days * 86400000000))
  /\ (Enrollment.expires_at e = None ->
      Enrollment.expires_at e' = Some (t_else + days * 86400000000))
  /\ (t_test = t_else ->
      Enrollment.expires_at e'
      = Some (Z.max t_else (default t_else (Enrollment.expires_at e))
              + days * 86400000000))
  /\ (forall old,
        Enrollment.expires_at e = Some old -> t_test = t_else ->
        Enrollment.is_expired e t_test = false ->
        Enrollment.expires_at e' = Some (old + days * 86400000000))
  /\ Enrollment.is_active e' = true
  /\ Enrollment.subscription_renewed e' = Some t_renewed.
Proof.
  unfold Enrollment.renew_subscription, Enrollment.is_expired, timedelta,
    microseconds_per_day. simpl.
  destruct (Enrollment.expires_at e) as [old|]; simpl.
  - destruct (Z.ltb_spec t_test old), (Z.ltb_spec old t_test);
      repeat split; try done; try lia;
      try (intros; simplify_eq; f_equal; lia).
  - repeat split; try done. intros _. f_equal. lia.
Qed.

Lemma renew_subscription_expiry_witness :
  Enrollment.expires_at running_enrollment = Some 5000
  /\ 2000 < 5000
  /\ Enrollment.expires_at
       (Enrollment.renew_subscription running_enrollment 30 2000 2001 2002)
     = Some (5000 + 30 * 86400000000).
Proof.
  split; [reflexivity|]. split; [lia|].
  apply (proj1 (renew_subscription_expiry running_enrollment 30
                  2000 2001 2002) 5000); [reflexivity|lia].
Defined.
End Renewal.

(** ** Enrollment routes *)

Section EnrollmentRoutes.
Import Sample.

Lemma Qeq_bool_pos_false (x : Q) : (0 < x)%Q -> Qeq_bool x 0 = false.
Proof.
  intros H. destruct (Qeq_bool x 0) eqn:E; [|done].
  apply Qeq_bool_iff in E. rewrite E in H. by apply Qlt_irrefl in H.
Qed.

(** An enrollment of the student in the course keeps [checkout] from
    writing anything, and [enroll_course] too, unless the enrollment expires
    between the two [is_expired()] calls. *)
Lemma existing_enrollment_is_checked t_first t_second utcnow u course_id d i e :
  first (enrollment_of (User.id u) course_id) (enrollments d) = Some (i, e) ->
  Enrollment.is_expired e t_second = Enrollment.is_expired e t_first ->
  snd (enroll_course t_first t_second utcnow u course_id d) = d
  /\ snd (checkout u course_id d) = d.
Proof.
  intros He Hclock. unfold enroll_course, checkout.
  destruct (Course_get d course_id) as [course|] eqn:Hc; [|done].
  rewrite (Course_get_id _ _ _ Hc), He, Hclock.
  by destruct (Enrollment.is_expired e t_first).
Qed.

(** C3. For a course with price 0: [enroll_course] leaves the payments
    table as it is, whatever the state; and for a student with no
    enrollment in the course it inserts one enrollment, active, with no
    expiry date and subscription type 'unlimited'. *)
Theorem enroll_course_free t_first t_second utcnow u course_id d course :
  Course_get d course_id = Some course ->
  (Course.price course == 0)%Q ->
  payments (snd (enroll_course t_first t_second utcnow u course_id d)) = payments d
  /\ ((forall e, e ∈ enrollments d ->
                 enrollment_of (User.id u) course_id e = false) ->
      fst (enroll_course t_first t_second utcnow u course_id d)
      = redirect "view_course" course_id
      /\ exists e,
           enrollments (snd (enroll_course t_first t_second utcnow u course_id d))
           = enrollments d ++ [e]
           /\ Enrollment.student_id e = User.id u
           /\ Enrollment.course_id e = course_id
           /\ Enrollment.is_active e = true
           /\ Enrollment.expires_at e = None
           /\ Enrollment.subscription_type e = "unlimited"
           /\ forall t, Enrollment.has_access e t = true).
Proof.
  intros Hc Hfree. unfold enroll_course. rewrite Hc.
  rewrite (Course_get_id _ _ _ Hc).
  apply Qeq_bool_iff in Hfree. rewrite Hfree. split.
  - destruct (first _ (enrollments d)) as [[i e]|]; [|done].
    by destruct (Enrollment.is_expired e t_first),
                (Enrollment.is_expired e t_second).
  - intros Hnone. apply first_None in Hnone. rewrite Hnone. simpl.
    split; [done|]. eexists. split; [done|]. done.
Qed.

Lemma enroll_course_free_witness :
  Course_get free_db 1 = Some free_course
  /\ (Course.price free_course == 0)%Q
  /\ payments (snd (enroll_course 1500 1500 1501 alice 1 free_db)) = payments free_db
  /\ exists e,
       enrollments (snd (enroll_course 1500 1500 1501 alice 1 free_db))
       = enrollments free_db ++ [e]
       /\ Enrollment.expires_at e = None.
Proof.
  assert (Course_get free_db 1 = Some free_course) as Hc by reflexivity.
  assert (Course.price free_course == 0)%Q as Hp by reflexivity.
  split; [exact Hc|]. split; [exact Hp|].
  destruct (enroll_course_free 1500 1500 1501 alice 1 free_db free_course Hc Hp)
    as [Hpay Henr].
  split; [exact Hpay|].
  destruct Henr as [_ (e & He & _ & _ & _ & Hexp & _)].
  - intros e He. vm_compute in He. by apply elem_of_nil in He.
  - exists e. by split.
Defined.

(** C5. For a course with a positive price [enroll_course] writes
    nothing, and sends a student without an enrollment to checkout.
    [payment_success] inserts an enrollment exactly when a pending
    payment of the user for the course exists; the first such payment,
    whose status was 'pending', then has the status 'completed' and is
    otherwise as before, and one enrollment is inserted; without a pending
    payment the store is unchanged. *)
Theorem paid_enrollment_needs_pending_payment t_first t_second utcnow u course_id d course :
  Course_get d course_id = Some course ->
  (0 < Course.price course)%Q ->
  (snd (enroll_course t_first t_second utcnow u course_id d) = d
   /\ ((forall e, e ∈ enrollments d ->
                  enrollment_of (User.id u) course_id e = false) ->
       fst (enroll_course t_first t_second utcnow u course_id d)
       = redirect "checkout" course_id))
  /\ ((exists p, p ∈ payments d
                 /\ pending_payment_of (User.id u) course_id p = true) ->
      exists i p e,
        first (pending_payment_of (User.id u) course_id) (payments d)
        = Some (i, p)
        /\ payments (snd (payment_success utcnow u course_id d))
           = <[i := Payment.set_status p "completed"]> (payments d)
        /\ payments (snd (payment_success utcnow u course_id d)) !! i
           = Some (Payment.set_status p "completed")
        /\ enrollments (snd (payment_success utcnow u course_id d))
           = enrollments d ++ [e]
        /\ Enrollment.student_id e = User.id u
        /\ Enrollment.course_id e = course_id
        /\ Enrollment.is_active e = true
        /\ payments d !! i = Some p
        /\ Payment.status p = "pending"
        /\ exists p',
             payments (snd (payment_success utcnow u course_id d)) !! i
             = Some p'
             /\ Payment.status p' = "completed"
             /\ Payment.id p' = Payment.id p
             /\ Payment.user_id p' = User.id u
             /\ Payment.course_id p' = course_id
             /\ Payment.amount p' = Payment.amount p
             /\ Payment.payment_id p' = Payment.payment_id p)
  /\ ((forall p, p ∈ payments d ->
                 pending_payment_of (User.id u) course_id p = false) ->
      snd (payment_success utcnow u course_id d) = d)
  /\ ((exists e, enrollments (snd (payment_success utcnow u course_id d))
                 = enrollments d ++ [e])
      <-> exists p, p ∈ payments d
                    /\ pending_payment_of (User.id u) course_id p = true).
Proof.
  intros Hc Hpaid.
  pose proof (Course_get_id _ _ _ Hc) as Hid.
  assert (forall (A : Type) (l : list A) (x : A), l <> l ++ [x]) as Hgrow.
  { intros A l x H. apply (f_equal length) in H.
    rewrite length_app in H. simpl in H. lia. }
  split; [|split; [|split]].
  - unfold enroll_course. rewrite Hc, Hid, (Qeq_bool_pos_false _ Hpaid).
    split.
    + destruct (first _ (enrollments d)) as [[i e]|]; [|done].
      by destruct (Enrollment.is_expired e t_first),
                  (Enrollment.is_expired e t_second).
    + intros Hnone. apply first_None in Hnone. by rewrite Hnone.
  - intros Hex. apply first_is_Some in Hex as [[i p] Hfirst].
    unfold payment_success. rewrite Hc, Hid, Hfirst. simpl.
    apply first_Some in Hfirst as [Hi Hp].
    assert (<[i := Payment.set_status p "completed"]> (payments d) !! i
            = Some (Payment.set_status p "completed")) as Hnew.
    { apply list_lookup_insert_eq. by eapply lookup_lt_Some. }
    unfold pending_payment_of in Hp.
    apply andb_true_iff in Hp as [Hp Hstatus].
    apply andb_true_iff in Hp as [Huser Hcourse].
    apply String.eqb_eq in Hstatus.
    apply Z.eqb_eq in Huser. apply Z.eqb_eq in Hcourse.
    exists i, p. eexists. split; [done|]. split; [done|].
    split; [exact Hnew|]. split; [done|]. split; [done|]. split; [done|].
    split; [done|]. split; [done|]. split; [done|].
    exists (Payment.set_status p "completed"). split; [exact Hnew|].
    repeat split; done.
  - intros Hnone. apply first_None in Hnone.
    unfold payment_success. by rewrite Hc, Hid, Hnone.
  - unfold payment_success. rewrite Hc, Hid.
    rewrite <- first_is_Some.
    destruct (first _ (payments d)) as [[i p]|]; simpl.
    + split; [done|]. intros _. by eexists.
    + split; [|by intros [? ?]]. intros [e He]. by apply Hgrow in He.
Qed.

Lemma paid_enrollment_needs_pending_payment_witness :
  Course_get paying_db 2 = Some paid_course
  /\ (0 < Course.price paid_course)%Q
  /\ snd (enroll_course 2500 2500 3000 alice 2 paying_db) = paying_db
  /\ (exists e,
        enrollments (snd (payment_success 3000 alice 2 paying_db))
        = enrollments paying_db ++ [e])
  /\ exists i p',
       payments (snd (payment_success 3000 alice 2 paying_db)) !! i = Some p'
       /\ Payment.status p' = "completed".
Proof.
  assert (Course_get paying_db 2 = Some paid_course) as Hc by reflexivity.
  assert (0 < Course.price paid_course)%Q as Hp by reflexivity.
  assert (exists p, p ∈ payments paying_db
                    /\ pending_payment_of (User.id alice) 2 p = true)
    as Hpending.
  { exists pending_payment. split; [|reflexivity]. vm_compute. left. }
  split; [exact Hc|]. split; [exact Hp|].
  destruct (paid_enrollment_needs_pending_payment 2500 2500 3000 alice 2 paying_db
              paid_course Hc Hp) as (_ & Hdone & _ & Hiff).
  split; [reflexivity|]. split; [by apply Hiff|].
  destruct (Hdone Hpending)
    as (i & p & e & _ & _ & _ & _ & _ & _ & _ & _ & _ & p' & Hi & Hs & _).
  exists i, p'. split; [exact Hi | exact Hs].
Defined.

(** C4, at the failing input.  A paid course with a duration of 365 days
    and a pending payment: the enrollment that [payment_success] inserts
    has no expiry date, where [calculate_expiry_date] on its enrollment
    date gives that date plus 365 days. *)
Theorem payment_success_sets_no_expiry :
  Course.duration_days paid_course = 365
  /\ exists e,
       enrollments (snd (payment_success 3000 alice 2 paying_db)) = [e]
       /\ Enrollment.enrolled_at e = 3000
       /\ Enrollment.expires_at e = None
       /\ Course.calculate_expiry_date paid_course (Enrollment.enrolled_at e)
          = 3000 + 365 * 86400000000
       /\ Enrollment.expires_at (Enrollment.set_expiry_date e paid_course)
          = Some (Enrollment.enrolled_at e + 365 * 86400000000).
Proof.
  split; [reflexivity|]. eexists. split; [reflexivity|].
  repeat split.
Qed.

(** C6, at the failing inputs.  In a store with a paid course and two
    pending payments of a student for it, two loads of the success page,
    alone or among the other enrollment operations, leave two active
    enrollments of the student in the course: [payment_success] does not
    look for an existing enrollment.  In a store with a free course and
    nothing else, [enroll_course] enrolls a second time when the renewed
    enrollment expires between its two [is_expired()] calls. *)
Theorem payment_success_duplicates_enrollment :
  enrollments two_pending_db = []
  /\ count (active_enrollment_of 2 2)
           (enrollments (run double_success two_pending_db)) = 2%nat
  /\ count (active_enrollment_of 2 2)
           (enrollments (run enrollment_operations two_pending_db)) = 2%nat
  /\ enrollments free_db = []
  /\ payments (run expiring_between_reads free_db) = []
  /\ count (active_enrollment_of 2 1)
           (enrollments (run expiring_between_reads free_db)) = 2%nat.
Proof. repeat split. Qed.
End EnrollmentRoutes.

(** ** More on queries *)

Section MoreQueries.
Context {A : Type}.
Implicit Types (f : A -> bool) (rows : list A).

Lemma first_app_new f rows x :
  first f rows = None -> f x = true ->
  first f (rows ++ [x]) = Some (length rows, x).
Proof.
  induction rows as [|r rows IH]; simpl; intros Hnone Hx.
  - by rewrite Hx.
  - destruct (f r); [done|].
    destruct (first f rows) as [[? ?]|]; [done|].
    by rewrite IH.
Qed.

Lemma first_app_old f rows rows' i x :
  first f rows = Some (i, x) -> first f (rows ++ rows') = Some (i, x).
Proof.
  revert i. induction rows as [|r rows IH]; simpl; intros i; [done|].
  destruct (f r); [done|].
  destruct (first f rows) as [[j y]|]; [|done].
  intros [= <- <-]. by rewrite (IH j).
Qed.

Lemma count_zero_first f rows : count f rows = O -> first f rows = None.
Proof.
  unfold count. induction rows as [|r rows IH]; simpl; [done|].
  destruct (f r); simpl; [done|]. intros H. by rewrite IH.
Qed.

Lemma count_insert_first f rows i x y :
  first f rows = Some (i, x) -> f y = false ->
  S (count f (<[i := y]> rows)) = count f rows.
Proof.
  unfold count. revert i.
  induction rows as [|r rows IH]; simpl; intros i; [done|].
  destruct (f r) eqn:Hr.
  - intros [= <- <-] Hy. simpl. by rewrite Hy.
  - destruct (first f rows) as [[j z]|]; [|done].
    intros [= <- <-] Hy. simpl. rewrite Hr. by apply IH.
Qed.

Lemma count_alter_first f (h : A -> A) rows i x :
  first f rows = Some (i, x) -> f (h x) = false ->
  S (count f (alter h i rows)) = count f rows.
Proof.
  unfold count. revert i.
  induction rows as [|r rows IH]; simpl; intros i; [done|].
  destruct (f r) eqn:Hr.
  - intros [= <- <-] Hy. simpl. by rewrite Hy.
  - destruct (first f rows) as [[j z]|]; [|done].
    intros [= <- <-] Hy. simpl. rewrite Hr. by apply IH.
Qed.

Lemma count_alter_gain f (h : A -> A) rows i x :
  rows !! i = Some x -> f x = false -> f (h x) = true ->
  count f (alter h i rows) = S (count f rows).
Proof.
  unfold count. revert i.
  induction rows as [|r rows IH]; intros [|i]; simpl; try done.
  - intros [= ->] Hx Hh. by rewrite Hx, Hh.
  - intros Hi Hx Hh. specialize (IH i Hi Hx Hh).
    destruct (f r); simpl; [f_equal|]; exact IH.
Qed.

Lemma count_alter_same f (h : A -> A) rows i :
  (forall x, f (h x) = f x) -> count f (alter h i rows) = count f rows.
Proof.
  intros Hh. unfold count. revert i.
  induction rows as [|r rows IH]; intros [|i]; simpl; try done.
  - rewrite Hh. by destruct (f r).
  - specialize (IH i). destruct (f r); simpl; [f_equal|]; exact IH.
Qed.
End MoreQueries.

(** ** Payments: what the routes do to the pending payments *)

Section Payments.
Import Sample.

Lemma pending_after_status user course p s :
  String.eqb s "pending" = false ->
  pending_payment_of user course (Payment.set_status p s) = false.
Proof.
  intros Hs. unfold pending_payment_of. simpl. by rewrite Hs, andb_false_r.
Qed.

(** X2. On an existing course [payment_success] and [payment_cancel] each
    use up one pending payment of the user for the course: the number of
    such payments drops by one (staying 0 when there is none), the table
    keeps its length, every row that is not such a pending payment stays as
    it is, and [payment_cancel] leaves the enrollments alone. *)
Theorem pending_payment_consumed utcnow u course_id d course :
  Course_get d course_id = Some course ->
  let pending := pending_payment_of (User.id u) course_id in
  let after_success := snd (payment_success utcnow u course_id d) in
  let after_cancel := snd (payment_cancel u course_id d) in
  count pending (payments after_success) = pred (count pending (payments d))
  /\ count pending (payments after_cancel) = pred (count pending (payments d))
  /\ length (payments after_success) = length (payments d)
  /\ length (payments after_cancel) = length (payments d)
  /\ enrollments after_cancel = enrollments d
  /\ forall j p,
       payments d !! j = Some p -> pending p = false ->
       payments after_success !! j = Some p
       /\ payments after_cancel !! j = Some p.
Proof.
  intros Hc pending after_success after_cancel.
  pose proof (Course_get_id _ _ _ Hc) as Hid.
  subst after_success after_cancel. unfold payment_success, payment_cancel.
  rewrite Hc, Hid. fold pending.
  destruct (first pending (payments d)) as [[i q]|] eqn:Hfirst; simpl.
  - pose proof (count_insert_first _ _ _ _ (Payment.set_status q "completed")
                  Hfirst (pending_after_status _ _ q "completed" eq_refl)).
    pose proof (count_insert_first _ _ _ _ (Payment.set_status q "failed")
                  Hfirst (pending_after_status _ _ q "failed" eq_refl)).
    rewrite !length_insert.
    repeat split; try done; try lia.
    + apply first_Some in Hfirst as [Hi Hq].
      rewrite list_lookup_insert_ne; [done|]. intros ->. congruence.
    + apply first_Some in Hfirst as [Hi Hq].
      rewrite list_lookup_insert_ne; [done|]. intros ->. congruence.
  - rewrite (count_first_None _ _ Hfirst). done.
Qed.

Lemma pending_payment_consumed_witness :
  Course_get paying_db 2 = Some paid_course
  /\ count (pending_payment_of 2 2)
           (payments (snd (payment_success 3000 alice 2 paying_db))) = O
  /\ count (pending_payment_of 2 2)
           (payments (snd (payment_cancel alice 2 paying_db))) = O.
Proof.
  split; [reflexivity|].
  destruct (pending_payment_consumed 3000 alice 2 paying_db paid_course
              eq_refl) as (H1 & H2 & _).
  split; [exact H1 | exact H2].
Defined.

(** X3. Cancelling blocks the success page: when the user has at most one
    pending payment for the course, [payment_cancel] followed by
    [payment_success] creates no enrollment. *)
Theorem cancel_blocks_success utcnow u course_id d :
  (count (pending_payment_of (User.id u) course_id) (payments d) <= 1)%nat ->
  enrollments
    (snd (payment_success utcnow u course_id
            (snd (payment_cancel u course_id d))))
  = enrollments d.
Proof.
  intros Hone.
  destruct (Course_get d course_id) as [course|] eqn:Hc.
  - destruct (pending_payment_consumed utcnow u course_id d course Hc)
      as (_ & Hcount & _ & _ & Henr & _).
    assert (Course_get (snd (payment_cancel u course_id d)) course_id
            = Some course) as Hc'.
    { unfold payment_cancel. rewrite Hc.
      by destruct (first _ (payments d)) as [[? ?]|]. }
    pose proof (Course_get_id _ _ _ Hc) as Hid.
    unfold payment_success at 1. rewrite Hc', Hid.
    rewrite (count_zero_first _ (payments (snd (payment_cancel u course_id d))))
      by lia.
    done.
  - unfold payment_cancel. rewrite Hc. simpl.
    unfold payment_success. by rewrite Hc.
Qed.

Lemma cancel_blocks_success_witness :
  (count (pending_payment_of (User.id alice) 2) (payments paying_db) <= 1)%nat
  /\ enrollments
       (snd (payment_success 3000 alice 2
               (snd (payment_cancel alice 2 paying_db))))
     = enrollments paying_db.
Proof.
  assert (count (pending_payment_of (User.id alice) 2) (payments paying_db)
          <= 1)%nat as H by (vm_compute; lia).
  split; [exact H|].
  exact (cancel_blocks_success 3000 alice 2 paying_db H).
Defined.
End Payments.

(** ** Expiry, access and renewal *)

Section Expiry.
Import Sample.

Lemma day_positive : 0 < microseconds_per_day.
Proof. reflexivity. Qed.

(** X4. [days_until_expiry] agrees with [is_expired]: it answers [None]
    exactly for an enrollment without expiry date, never a negative number,
    0 for an expired enrollment, and a positive [n] only when the expiry
    lies at least [n] and less than [n + 1] days ahead of the clock. *)
Theorem days_until_expiry_consistent e utcnow :
  (Enrollment.days_until_expiry e utcnow = None
   <-> Enrollment.expires_at e = None)
  /\ (forall n, Enrollment.days_until_expiry e utcnow = Some n -> 0 <= n)
  /\ (Enrollment.is_expired e utcnow = true ->
      Enrollment.days_until_expiry e utcnow = Some 0)
  /\ (forall n,
        Enrollment.days_until_expiry e utcnow = Some n -> 0 < n ->
        Enrollment.is_expired e utcnow = false
        /\ exists old,
             Enrollment.expires_at e = Some old
             /\ utcnow + n * 86400000000 <= old
                < utcnow + (n + 1) * 86400000000).
Proof.
  unfold Enrollment.days_until_expiry, Enrollment.is_expired,
    microseconds_per_day.
  destruct (Enrollment.expires_at e) as [old|]; [|by repeat split].
  split; [by split|]. split; [intros n [= <-]; lia|]. split.
  - intros Hlt. apply Z.ltb_lt in Hlt. f_equal.
    assert ((old - utcnow) / 86400000000 < 0); [|lia].
    apply Z.div_lt_upper_bound; lia.
  - intros n [= <-] Hn.
    assert (0 < (old - utcnow) / 86400000000) as Hq by lia.
    rewrite Z.max_r by lia.
    pose proof (Z.div_mod (old - utcnow) 86400000000 ltac:(lia)) as Hdiv.
    pose proof (Z.mod_pos_bound (old - utcnow) 86400000000 ltac:(lia)).
    split.
    + apply Z.ltb_ge. nia.
    + exists old. split; [done|]. nia.
Qed.

Lemma days_until_expiry_consistent_witness :
  Enrollment.is_expired running_enrollment 6000 = true
  /\ Enrollment.days_until_expiry running_enrollment 6000 = Some 0.
Proof.
  split; [reflexivity|].
  apply (days_until_expiry_consistent running_enrollment 6000). reflexivity.
Defined.

(** X5. Renewal restores access: after [renew_subscription(d)] with
    [d >= 0], read at the instant of the renewal, the enrollment has access
    and at least [d] days until expiry, whatever its state before. *)
Theorem renewal_restores_access e days utcnow t_renewed :
  0 <= days ->
  let e' := Enrollment.renew_subscription e days utcnow utcnow t_renewed in
  Enrollment.has_access e' utcnow = true
  /\ exists n, Enrollment.days_until_expiry e' utcnow = Some n /\ days <= n.
Proof.
  intros Hd e'. subst e'.
  unfold Enrollment.has_access, Enrollment.is_expired,
    Enrollment.days_until_expiry, Enrollment.renew_subscription, timedelta.
  simpl. pose proof day_positive as Hday.
  set (expiry := match Enrollment.expires_at e with
                 | Some old =>
                     if utcnow <? old then old + days * microseconds_per_day
                     else utcnow + days * microseconds_per_day
                 | None => utcnow + days * microseconds_per_day
                 end).
  assert (utcnow + days * microseconds_per_day <= expiry) as Hexp.
  { subst expiry. destruct (Enrollment.expires_at e) as [old|]; [|lia].
    destruct (Z.ltb_spec utcnow old); lia. }
  split.
  - apply negb_true_iff, Z.ltb_ge. nia.
  - eexists. split; [done|].
    assert (days <= (expiry - utcnow) / microseconds_per_day); [|lia].
    apply Z.div_le_lower_bound; lia.
Qed.

Lemma renewal_restores_access_witness :
  0 <= 30
  /\ Enrollment.has_access
       (Enrollment.renew_subscription running_enrollment 30 6000 6000 6001)
       6000 = true.
Proof.
  split; [lia|].
  apply (renewal_restores_access running_enrollment 30 6000 6001). lia.
Defined.

(** X6. Renewals add up: a renewal of [d2] days made while the previous
    renewal of [d1] days has not expired leaves the same expiry date as one
    renewal of [d1 + d2] days made at the time of the first. *)
Theorem renewals_add_up e d1 d2 now1 now2 r1 r2 r :
  Enrollment.is_expired
    (Enrollment.renew_subscription e d1 now1 now1 r1) now2 = false ->
  Enrollment.expires_at
    (Enrollment.renew_subscription
       (Enrollment.renew_subscription e d1 now1 now1 r1) d2 now2 now2 r2)
  = Enrollment.expires_at
      (Enrollment.renew_subscription e (d1 + d2) now1 now1 r).
Proof.
  unfold Enrollment.is_expired, Enrollment.renew_subscription, timedelta.
  simpl. intros Hlive. apply Z.ltb_ge in Hlive. f_equal.
  destruct (Enrollment.expires_at e) as [old|].
  - destruct (Z.ltb_spec now1 old);
      match goal with |- context [?a <? ?b] => destruct (Z.ltb_spec a b) end;
      lia.
  - match goal with |- context [?a <? ?b] => destruct (Z.ltb_spec a b) end;
      lia.
Qed.

Lemma renewals_add_up_witness :
  Enrollment.is_expired
    (Enrollment.renew_subscription running_enrollment 30 6000 6000 6001)
    7000 = false
  /\ Enrollment.expires_at
       (Enrollment.renew_subscription
          (Enrollment.renew_subscription running_enrollment 30 6000 6000 6001)
          15 7000 7000 7001)
     = Enrollment.expires_at
         (Enrollment.renew_subscription running_enrollment 45 6000 6000 6001).
Proof.
  split; [reflexivity|].
  apply (renewals_add_up running_enrollment 30 15 6000 7000 6001 7001 6001).
  reflexivity.
Defined.

(** X7. [set_expiry_date] gives the course duration: read at the
    enrollment date, [days_until_expiry] is the course's [duration_days]
    (0 for a negative duration); the enrollment is expired exactly after
    enrollment date plus duration; setting the date twice is setting it
    once. *)
Theorem set_expiry_date_duration e course :
  Enrollment.days_until_expiry (Enrollment.set_expiry_date e course)
                               (Enrollment.enrolled_at e)
  = Some (Z.max 0 (Course.duration_days course))
  /\ (forall t,
        Enrollment.is_expired (Enrollment.set_expiry_date e course) t = true
        <-> Enrollment.enrolled_at e
            + Course.duration_days course * 86400000000 < t)
  /\ Enrollment.set_expiry_date (Enrollment.set_expiry_date e course) course
     = Enrollment.set_expiry_date e course.
Proof.
  unfold Enrollment.days_until_expiry, Enrollment.is_expired,
    Enrollment.set_expiry_date, Course.calculate_expiry_date, timedelta.
  simpl. split; [|split].
  - f_equal. f_equal.
    replace (Enrollment.enrolled_at e
             + Course.duration_days course * microseconds_per_day
             - Enrollment.enrolled_at e)
      with (Course.duration_days course * microseconds_per_day) by lia.
    apply Z.div_mul. discriminate.
  - intros t. apply Z.ltb_lt.
  - done.
Qed.
End Expiry.

(** ** Enrolling twice *)

Section EnrollTwice.
Import Sample.


End EnrollTwice.

(** ** Taking a quiz: page loads, gates, score range *)

Section QuizMore.
Import Sample.

Lemma take_quiz_get t_started t_completed u quiz_id f d :
  snd (take_quiz t_started t_completed u quiz_id false f d) =
  match Quiz_get d quiz_id with
  | None => d
  | Some quiz =>
      match Course_get d (Quiz.course_id quiz) with
      | None => d
      | Some course =>
          if negb (bool_decide (is_Some
                     (first (enrollment_of (User.id u) (Course.id course))
                            (enrollments d))))
             && negb (User.is_instructor u)
          then d
          else match first (open_attempt_of (Quiz.id quiz) (User.id u))
                           (attempts d) with
               | Some _ => d
               | None =>
                   set_attempts d
                     (attempts d ++
                      [new_attempt d (Quiz.id quiz) (User.id u) t_started])
               end
      end
  end.
Proof.
  unfold take_quiz.
  destruct (Quiz_get d quiz_id) as [quiz|]; [|done].
  destruct (Course_get d _) as [course|]; [|done].
  destruct (negb _ && negb _); [done|].
  by destruct (first (open_attempt_of _ _) (attempts d)) as [[i a]|].
Qed.

(** X9. Loading the quiz page twice is loading it once: a second
    [take_quiz] request without submission, at any later time, leaves the
    store exactly as the first left it; the first inserts at most one
    attempt. *)
Theorem take_quiz_reload t1 t2 t3 t4 u quiz_id f f' d :
  let d1 := snd (take_quiz t1 t2 u quiz_id false f d) in
  snd (take_quiz t3 t4 u quiz_id false f' d1) = d1
  /\ (length (attempts d1) <= S (length (attempts d)))%nat.
Proof.
  intros d1. subst d1. rewrite !take_quiz_get.
  destruct (Quiz_get d quiz_id) as [quiz|] eqn:Hq.
  2: { rewrite Hq. split; [done|lia]. }
  destruct (Course_get d (Quiz.course_id quiz)) as [course|] eqn:Hc.
  2: { rewrite Hq, Hc. split; [done|lia]. }
  destruct (negb _ && negb _) eqn:Hgate.
  { rewrite Hq, Hc, Hgate. split; [done|lia]. }
  destruct (first (open_attempt_of _ _) (attempts d)) as [[i a]|] eqn:Hopen.
  { rewrite Hq, Hc, Hgate, Hopen. split; [done|lia]. }
  split.
  - change (Quiz_get (set_attempts d _) quiz_id) with (Quiz_get d quiz_id).
    rewrite Hq.
    change (Course_get (set_attempts d _) (Quiz.course_id quiz))
      with (Course_get d (Quiz.course_id quiz)).
    rewrite Hc.
    change (enrollments (set_attempts d _)) with (enrollments d).
    rewrite Hgate.
    change (attempts (set_attempts d ?l)) with l.
    rewrite (first_app_new _ _ _ Hopen); [done|].
    unfold open_attempt_of, new_attempt. simpl. by rewrite !Z.eqb_refl.
  - simpl. rewrite length_app. simpl. lia.
Qed.

(** X10. Only an enrolled student or an instructor changes anything
    through [take_quiz]: a request that changes the store found the quiz
    and its course, and its user is enrolled in the course or is an
    instructor or admin. *)
Theorem take_quiz_gate t_started t_completed u quiz_id v f d :
  snd (take_quiz t_started t_completed u quiz_id v f d) <> d ->
  exists quiz course,
    Quiz_get d quiz_id = Some quiz
    /\ Course_get d (Quiz.course_id quiz) = Some course
    /\ ((exists e, e ∈ enrollments d
                   /\ Enrollment.student_id e = User.id u
                   /\ Enrollment.course_id e = Course.id course)
        \/ User.role u = "instructor" \/ User.role u = "admin").
Proof.
  unfold take_quiz.
  destruct (Quiz_get d quiz_id) as [quiz|] eqn:Hq; [|done].
  destruct (Course_get d _) as [course|] eqn:Hc; [|done].
  destruct (negb _ && negb _) eqn:Hgate; [done|].
  intros _. exists quiz, course. split; [done|]. split; [done|].
  apply andb_false_iff in Hgate as [Hgate|Hgate].
  - left. apply negb_false_iff in Hgate.
    apply bool_decide_eq_true_1 in Hgate.
    apply first_is_Some in Hgate as (e & He & Hm). exists e.
    unfold enrollment_of in Hm.
    apply andb_true_iff in Hm as [H1 H2]. split; [done|]. lia.
  - right. apply negb_false_iff in Hgate. unfold User.is_instructor in Hgate.
    apply orb_true_iff in Hgate as [H|H]; apply String.eqb_eq in H; auto.
Qed.

Lemma take_quiz_gate_witness :
  snd (take_quiz 1500 1501 alice 1 false [] quiz_db) <> quiz_db
  /\ exists quiz course,
       Quiz_get quiz_db 1 = Some quiz
       /\ Course_get quiz_db (Quiz.course_id quiz) = Some course
       /\ ((exists e, e ∈ enrollments quiz_db
                      /\ Enrollment.student_id e = User.id alice
                      /\ Enrollment.course_id e = Course.id course)
           \/ User.role alice = "instructor" \/ User.role alice = "admin").
Proof.
  assert (snd (take_quiz 1500 1501 alice 1 false [] quiz_db) <> quiz_db) as H.
  { intros Heq. apply (f_equal (fun x => length (attempts x))) in Heq.
    vm_compute in Heq. discriminate Heq. }
  split; [exact H|].
  exact (take_quiz_gate 1500 1501 alice 1 false [] quiz_db H).
Defined.

Lemma sum_points_filter_bounds (g : Question.t -> bool) questions :
  Forall (fun q => 0 <= Question.points q) questions ->
  0 <= sum_points (List.filter g questions) <= sum_points questions.
Proof.
  induction 1 as [|q questions Hq _ IH]; simpl; [lia|].
  destruct (g q); simpl; lia.
Qed.

Lemma ratio_bounds score total :
  0 <= score <= total -> 0 < total ->
  (0 <= inject_Z score / inject_Z total * 100
   /\ inject_Z score / inject_Z total * 100 <= 100)%Q.
Proof.
  intros Hs Hpos. destruct total as [|t|t]; try lia.
  unfold Qle, Qdiv, Qmult, Qinv, inject_Z. simpl. lia.
Qed.

(** X11. A recorded score is a percentage: when no question of the quiz
    has negative points, a submission that passes the gates is recorded
    with a score between 0 and 100, and with 0 when the quiz has no
    points to earn (no questions, or only 0-point questions). *)
Theorem take_quiz_score_range t_started t_completed u quiz_id f d quiz course :
  Quiz_get d quiz_id = Some quiz ->
  Course_get d (Quiz.course_id quiz) = Some course ->
  is_Some (first (enrollment_of (User.id u) (Course.id course))
                 (enrollments d))
  \/ User.is_instructor u = true ->
  Forall (fun q => 0 <= Question.points q)
         (quiz_questions d (Quiz.id quiz)) ->
  exists a,
    attempts (snd (take_quiz t_started t_completed u quiz_id true f d))
      !! attempt_position d (Quiz.id quiz) (User.id u) = Some a
    /\ (0 <= QuizAttempt.score a)%Q
    /\ (QuizAttempt.score a <= 100)%Q
    /\ (sum_points (quiz_questions d (Quiz.id quiz)) = 0 ->
        QuizAttempt.score a = 0%Q).
Proof.
  intros Hquiz Hcourse Hgate Hpos.
  destruct (take_quiz_submitted t_started t_completed u quiz_id f d quiz
              course Hquiz Hcourse Hgate) as (a & Ha & Hscore & _).
  exists a. split; [done|]. rewrite Hscore.
  rewrite earned_points_spec, total_points_spec.
  pose proof (sum_points_filter_bounds (awarded d f) _ Hpos)
    as Hbounds.
  unfold percentage_score.
  destruct (Z.ltb_spec 0 (sum_points (quiz_questions d (Quiz.id quiz))))
    as [HT|HT].
  - destruct (ratio_bounds _ _ Hbounds HT) as [Hlo Hhi].
    split; [done|]. split; [done|]. lia.
  - split; [done|]. split; [done|]. done.
Qed.

Lemma take_quiz_score_range_witness :
  Quiz_get quiz_db 1 = Some (Quiz.mk 1 1 "Week 1")
  /\ Forall (fun q => 0 <= Question.points q) (quiz_questions quiz_db 1)
  /\ exists a,
       attempts (snd (take_quiz 1500 1501 alice 1 true only_second_right
                        quiz_db))
         !! attempt_position quiz_db 1 2 = Some a
       /\ (0 <= QuizAttempt.score a)%Q
       /\ (QuizAttempt.score a <= 100)%Q.
Proof.
  assert (Forall (fun q => 0 <= Question.points q)
                 (quiz_questions quiz_db 1)) as Hpos.
  { vm_compute. repeat constructor; discriminate. }
  split; [reflexivity|]. split; [exact Hpos|].
  destruct (take_quiz_score_range 1500 1501 alice 1 only_second_right quiz_db
              (Quiz.mk 1 1 "Week 1") free_course eq_refl eq_refl
              (or_introl (ex_intro _ (O, alice_in_free_course) eq_refl)) Hpos)
    as (a & Ha & Hlo & Hhi & _).
  exists a. split; [exact Ha|]. split; [exact Hlo | exact Hhi].
Defined.

(** X12. Every submission completes exactly one attempt: a submission
    that passes the gates raises the number of completed attempts of the
    student on the quiz by one, leaves the student without open attempt
    on the quiz, and adds at most one row. *)
Theorem submission_completes_one t_started t_completed u quiz_id f d quiz course :
  Quiz_get d quiz_id = Some quiz ->
  Course_get d (Quiz.course_id quiz) = Some course ->
  is_Some (first (enrollment_of (User.id u) (Course.id course))
                 (enrollments d))
  \/ User.is_instructor u = true ->
  let d' := snd (take_quiz t_started t_completed u quiz_id true f d) in
  count (completed_attempt_of (Quiz.id quiz) (User.id u)) (attempts d')
  = S (count (completed_attempt_of (Quiz.id quiz) (User.id u)) (attempts d))
  /\ (one_open_attempt (attempts d) ->
      first (open_attempt_of (Quiz.id quiz) (User.id u)) (attempts d') = None)
  /\ (length (attempts d') <= S (length (attempts d)))%nat.
Proof.
  intros Hquiz Hcourse Hgate d'. subst d'. unfold take_quiz.
  rewrite Hquiz, Hcourse.
  assert (negb (bool_decide (is_Some
            (first (enrollment_of (User.id u) (Course.id course))
                   (enrollments d))))
          && negb (User.is_instructor u) = false) as ->.
  { destruct Hgate as [H | ->].
    - by rewrite (bool_decide_eq_true_2 _ H).
    - by rewrite andb_false_r. }
  set (completed := completed_attempt_of (Quiz.id quiz) (User.id u)).
  set (open := open_attempt_of (Quiz.id quiz) (User.id u)).
  destruct (first open (attempts d)) as [[i a]|] eqn:E.
  - pose proof E as E'. apply first_Some in E' as [Hi Ha].
    apply open_attempt_of_spec in Ha as (Hq & Hs & Hopen).
    assert (forall p,
               count completed
                 (alter (fun a => QuizAttempt.submit a p t_completed) i
                        (attempts d))
               = S (count completed (attempts d))
               /\ (one_open_attempt (attempts d) ->
                   first open
                     (alter (fun a => QuizAttempt.submit a p t_completed) i
                            (attempts d)) = None)
               /\ (length
                     (alter (fun a => QuizAttempt.submit a p t_completed) i
                            (attempts d))
                   <= S (length (attempts d)))%nat) as Hold.
    { intros p. split; [|split].
      - apply count_alter_gain with a; [done| |];
          unfold completed, completed_attempt_of; simpl.
        + by rewrite Hopen, andb_false_r.
        + by rewrite Hq, Hs, !Z.eqb_refl.
      - intros Hinv. apply count_zero_first.
        assert (open (QuizAttempt.submit a p t_completed) = false) as Hclosed.
        { unfold open, open_attempt_of. simpl. by rewrite andb_false_r. }
        pose proof (count_alter_first open
                      (fun a => QuizAttempt.submit a p t_completed)
                      _ _ _ E Hclosed) as Hcount.
        specialize (Hinv (Quiz.id quiz) (User.id u)). fold open in Hinv. lia.
      - rewrite length_alter. lia. }
    destruct (first (enrollment_of _ _) _); simpl; apply Hold.
  - assert (forall x, open x = false -> completed x = true ->
              count completed (attempts d ++ [x])
              = S (count completed (attempts d))
              /\ (one_open_attempt (attempts d) ->
                  first open (attempts d ++ [x]) = None)
              /\ (length (attempts d ++ [x]) <= S (length (attempts d)))%nat)
      as Hnew.
    { intros x Hx Hcx. split; [|split].
      - rewrite count_app. unfold count at 2. simpl. rewrite Hcx. simpl. lia.
      - intros _. apply count_zero_first. rewrite count_app.
        rewrite (count_first_None _ _ E). unfold count. simpl.
        by rewrite Hx.
      - rewrite length_app. simpl. lia. }
    destruct (first (enrollment_of _ _) _); simpl; rewrite alter_last;
      apply Hnew; unfold open, completed, open_attempt_of,
        completed_attempt_of; simpl; rewrite ?Z.eqb_refl, ?andb_false_r; done.
Qed.

Lemma submission_completes_one_witness :
  Quiz_get quiz_db 1 = Some (Quiz.mk 1 1 "Week 1")
  /\ count (completed_attempt_of 1 2)
           (attempts (snd (take_quiz 1500 1501 alice 1 true only_second_right
                             quiz_db)))
     = S (count (completed_attempt_of 1 2) (attempts quiz_db)).
Proof.
  split; [reflexivity|].
  apply (submission_completes_one 1500 1501 alice 1 only_second_right quiz_db
           (Quiz.mk 1 1 "Week 1") free_course eq_refl eq_refl
           (or_introl (ex_intro _ (O, alice_in_free_course) eq_refl))).
Defined.
End QuizMore.

(** ** Multiple choice: which answer ids score *)

Section AnswerIds.
Import Sample.

Lemma pk_of_string_str n : pk_of_string (str n) = Some n.
Proof.
  unfold pk_of_string, str. rewrite NilZero.isi.
  - simpl. f_equal. apply DecimalZ.of_to.
  - destruct n; simpl; try discriminate.
    intros [= H]. by apply Unsigned.to_uint_nonnil in H.
  - destruct n; simpl; try discriminate.
    intros [= H]. by apply Unsigned.to_uint_nonnil in H.
Qed.

Lemma str_nonempty n : String.eqb (str n) "" = false.
Proof.
  apply String.eqb_neq. intros H.
  pose proof (pk_of_string_str n) as Hpk. rewrite H in Hpk. discriminate Hpk.
Qed.

(** X13. A multiple-choice question is awarded for the id of any correct
    answer in the answers table: the lookup is by primary key alone, and
    the question the selected answer belongs to is not compared with the
    question being scored. *)
Theorem any_correct_answer_scores d f score question i a :
  Question.question_type question = "multiple_choice" ->
  Answer_find d (Answer.id a) = Some (i, a) ->
  Answer.is_correct a = true ->
  form_get f (field_name question) = Some (str (Answer.id a)) ->
  score_question d f score question = score + Question.points question.
Proof.
  intros Htype Hfind Hcorrect Hform.
  unfold score_question. rewrite Htype, Hform. simpl.
  rewrite str_nonempty. simpl.
  unfold Answer_get. rewrite pk_of_string_str.
  unfold Answer_find in Hfind. rewrite Hfind. simpl. by rewrite Hcorrect.
Qed.

Lemma any_correct_answer_scores_witness :
  Answer.question_id second_correct <> Question.id first_question
  /\ score_question quiz_db same_answer_twice 0 first_question
     = 0 + Question.points first_question.
Proof.
  split; [discriminate|].
  apply (any_correct_answer_scores quiz_db same_answer_twice 0 first_question
           2%nat second_correct); reflexivity.
Defined.
End AnswerIds.

(** ** Editing a quiz *)

Section QuizEditing.
Import Sample.

Lemma next_id_above ids x : x ∈ ids -> x < next_id ids.
Proof.
  unfold next_id. induction ids as [|y ids IH]; intros Hx.
  - by apply elem_of_nil in Hx.
  - apply elem_of_cons in Hx as [->|Hx]; simpl; [lia|].
    specialize (IH Hx). lia.
Qed.

Lemma first_elem_of {A : Type} (f : A -> bool) rows i x :
  first f rows = Some (i, x) -> x ∈ rows.
Proof.
  intros H. apply first_Some in H as [H _]. by eapply list_elem_of_lookup_2.
Qed.

Lemma Quiz_get_elem d quiz_id quiz :
  Quiz_get d quiz_id = Some quiz -> quiz ∈ quizzes d.
Proof.
  unfold Quiz_get. destruct (first _ (quizzes d)) as [[i q]|] eqn:E; [|done].
  intros [= <-]. by eapply first_elem_of.
Qed.

(** X14. The content of a quiz is edited only by the instructor who owns
    its course: when one of [edit_quiz], [edit_question], [delete_question],
    [delete_answer], behind [instructor_required], changes the store, the
    request is authenticated, its user has the role instructor or admin, and
    the user is the [instructor_id] of the course of a quiz in the store. *)
Theorem quiz_edit_needs_owner view current_user d :
  quiz_edit view ->
  snd (instructor_required view current_user d) <> d ->
  exists u quiz course,
    current_user = Some u
    /\ User.is_instructor u = true
    /\ quiz ∈ quizzes d
    /\ Course_get d (Quiz.course_id quiz) = Some course
    /\ Course.instructor_id course = User.id u.
Proof.
  intros Hview. unfold instructor_required.
  destruct current_user as [u|]; [|done].
  destruct (User.is_instructor u) eqn:Hrole; [|done]. simpl.
  intros Hchanged. exists u.
  assert (exists quiz course,
             quiz ∈ quizzes d
             /\ Course_get d (Quiz.course_id quiz) = Some course
             /\ Course.instructor_id course = User.id u)
    as (quiz & course & ? & ? & ?); [|by exists quiz, course].
  destruct Hview; revert Hchanged.
  - unfold edit_quiz.
    destruct (Quiz_get d quiz_id) as [quiz|] eqn:Hq; [|done].
    destruct (Course_get d _) as [course|] eqn:Hc; [|done].
    destruct (Z.eqb_spec (Course.instructor_id course) (User.id u)); [|done].
    intros _. exists quiz, course. eauto using Quiz_get_elem.
  - unfold edit_question.
    destruct (Question_find d question_id) as [[j question]|]; [|done].
    destruct (Quiz_get d _) as [quiz|] eqn:Hq; [|done].
    destruct (Course_get d _) as [course|] eqn:Hc; [|done].
    destruct (Z.eqb_spec (Course.instructor_id course) (User.id u)); [|done].
    intros _. exists quiz, course. eauto using Quiz_get_elem.
  - unfold delete_question.
    destruct (Question_find d question_id) as [[j question]|]; [|done].
    destruct (Quiz_get d _) as [quiz|] eqn:Hq; [|done].
    destruct (Course_get d _) as [course|] eqn:Hc; [|done].
    destruct (Z.eqb_spec (Course.instructor_id course) (User.id u)); [|done].
    intros _. exists quiz, course. eauto using Quiz_get_elem.
  - unfold delete_answer.
    destruct (Answer_find d answer_id) as [[k answer]|]; [|done].
    destruct (Question_find d _) as [[j question]|]; [|done].
    destruct (Quiz_get d _) as [quiz|] eqn:Hq; [|done].
    destruct (Course_get d _) as [course|] eqn:Hc; [|done].
    destruct (Z.eqb_spec (Course.instructor_id course) (User.id u)); [|done].
    intros _. exists quiz, course. eauto using Quiz_get_elem.
Qed.

Lemma quiz_edit_needs_owner_witness :
  quiz_edit (delete_question 1)
  /\ snd (instructor_required (delete_question 1) (Some teacher) quiz_db)
     <> quiz_db
  /\ snd (instructor_required (delete_question 1) (Some alice) quiz_db)
     = quiz_db
  /\ exists u quiz course,
       Some teacher = Some u
       /\ User.is_instructor u = true
       /\ quiz ∈ quizzes quiz_db
       /\ Course_get quiz_db (Quiz.course_id quiz) = Some course
       /\ Course.instructor_id course = User.id u.
Proof.
  assert (snd (instructor_required (delete_question 1) (Some teacher) quiz_db)
          <> quiz_db) as H.
  { intros Heq. apply (f_equal (fun x => length (questions x))) in Heq.
    vm_compute in Heq. discriminate Heq. }
  split; [constructor|]. split; [exact H|]. split; [reflexivity|].
  exact (quiz_edit_needs_owner _ _ _ (is_delete_question 1) H).
Defined.

(** X15. A new true/false question starts without a correct answer: when
    the owner adds a true/false question through [edit_quiz] to a store
    whose answers all belong to questions of the table, the question gets
    exactly the answers 'True' and 'False', neither marked correct, and a
    submission that leaves the question out is awarded its points. *)
Theorem edit_quiz_true_false quiz_id text points u d quiz course :
  Quiz_get d quiz_id = Some quiz ->
  Course_get d (Quiz.course_id quiz) = Some course ->
  Course.instructor_id course = User.id u ->
  answers_refer_to_questions d ->
  let d' := snd (edit_quiz quiz_id true text "true_false" points u d) in
  exists question,
    questions d' = questions d ++ [question]
    /\ Question.quiz_id question = Quiz.id quiz
    /\ Question.points question = points
    /\ Answer.text <$> question_answers d' question = ["True"; "False"]
    /\ Answer.is_correct <$> question_answers d' question = [false; false]
    /\ forall f score,
         form_get f (field_name question) = None ->
         score_question d' f score question = score + points.
Proof.
  intros Hq Hc Howner Hrefer d'. subst d'. unfold edit_quiz.
  rewrite Hq, Hc, Howner, Z.eqb_refl. simpl.
  set (qid := next_id (Question.id <$> questions d)).
  assert (List.filter (fun a => Answer.question_id a =? qid) (answers d) = [])
    as Hnone.
  { assert (forall a, a ∈ answers d -> Answer.question_id a <> qid) as Hfresh.
    { intros a Ha Heq. destruct (Hrefer a Ha) as (q & Hin & Hid).
      assert (Question.id q < qid); [|lia].
      apply next_id_above. apply list_elem_of_fmap. by exists q. }
    induction (answers d) as [|a l IH]; simpl; [done|].
    destruct (Z.eqb_spec (Answer.question_id a) qid) as [Heq|_].
    - exfalso. apply (Hfresh a); [by left|done].
    - apply IH. intros b Hb. apply Hfresh. by right. }
  eexists. split; [done|]. split; [done|]. split; [done|].
  unfold question_answers. simpl. fold qid.
  rewrite List.filter_app, Hnone. simpl. rewrite Z.eqb_refl. simpl.
  split; [done|]. split; [done|].
  intros f score Hform. unfold score_question, question_answers. simpl.
  fold qid. rewrite List.filter_app, Hnone. simpl. rewrite Z.eqb_refl. simpl.
  by rewrite Hform.
Qed.

Lemma edit_quiz_true_false_witness :
  Quiz_get quiz_db 1 = Some (Quiz.mk 1 1 "Week 1")
  /\ Course.instructor_id free_course = User.id teacher
  /\ answers_refer_to_questions quiz_db
  /\ exists question,
       questions (snd (edit_quiz 1 true "Is it so?" "true_false" 5 teacher
                         quiz_db))
       = questions quiz_db ++ [question]
       /\ Question.quiz_id question = 1.
Proof.
  assert (answers_refer_to_questions quiz_db) as Hrefer.
  { intros a Ha. vm_compute in Ha.
    repeat (apply elem_of_cons in Ha as [->|Ha]);
      [eexists; split; [left|reflexivity]
      |eexists; split; [left|reflexivity]
      |eexists; split; [right; left|reflexivity]
      |eexists; split; [right; left|reflexivity]
      |by apply elem_of_nil in Ha]. }
  split; [reflexivity|]. split; [reflexivity|]. split; [exact Hrefer|].
  destruct (edit_quiz_true_false 1 "Is it so?" 5 teacher quiz_db
              (Quiz.mk 1 1 "Week 1") free_course eq_refl eq_refl eq_refl
              Hrefer) as (question & H1 & H2 & _).
  exists question. split; [exact H1 | exact H2].
Defined.
End QuizEditing.

(** ** Deleting questions and answers *)

Section QuizDeleting.
Import Sample.

Lemma elem_of_delete_inv {A : Type} (l : list A) i x :
  x ∈ delete i l -> x ∈ l.
Proof.
  revert i. induction l as [|y l IH]; intros [|i]; simpl; intros H.
  - done.
  - done.
  - by right.
  - apply elem_of_cons in H as [->|H]; [by left|]. right. by eapply IH.
Qed.

Lemma elem_of_delete_other {A : Type} (l : list A) i x y :
  x ∈ l -> l !! i = Some y -> x <> y -> x ∈ delete i l.
Proof.
  revert i. induction l as [|z l IH]; intros [|i] Hx Hi Hne; simpl in *.
  - by apply elem_of_nil in Hx.
  - by apply elem_of_nil in Hx.
  - injection Hi as ->. by apply elem_of_cons in Hx as [->|Hx].
  - apply elem_of_cons in Hx as [->|Hx]; [by left|]. right. by eapply IH.
Qed.

Lemma elem_of_filter_bool {A : Type} (f : A -> bool) (l : list A) x :
  x ∈ List.filter f l <-> x ∈ l /\ f x = true.
Proof. rewrite !list_elem_of_In. apply List.filter_In. Qed.

Lemma sum_points_filter_delete (f : Question.t -> bool) l i q :
  l !! i = Some q ->
  sum_points (List.filter f (delete i l))
  = sum_points (List.filter f l) - (if f q then Question.points q else 0).
Proof.
  revert i. induction l as [|z l IH]; intros [|i] Hi; simpl in *; try done.
  - injection Hi as ->. destruct (f q); simpl; lia.
  - specialize (IH i Hi). destruct (f z); simpl; lia.
Qed.

Lemma filter_delete_other {A : Type} (f : A -> bool) (l : list A) i x :
  l !! i = Some x -> f x = false ->
  List.filter f (delete i l) = List.filter f l.
Proof.
  revert i. induction l as [|z l IH]; intros [|i] Hi Hx; simpl in *; try done.
  - injection Hi as ->. by rewrite Hx.
  - by rewrite (IH i Hi Hx).
Qed.

Lemma filter_filter_bool {A : Type} (f g : A -> bool) (l : list A) :
  List.filter f (List.filter g l) = List.filter (fun x => f x && g x) l.
Proof.
  induction l as [|z l IH]; simpl; [done|].
  destruct (g z); simpl; rewrite ?andb_false_r, ?andb_true_r.
  - destruct (f z); by rewrite IH.
  - done.
Qed.

Lemma filter_ext_bool {A : Type} (f g : A -> bool) (l : list A) :
  (forall x, f x = g x) -> List.filter f l = List.filter g l.
Proof. intros H. apply List.filter_ext. exact H. Qed.

Lemma filter_none_bool {A : Type} (f : A -> bool) (l : list A) :
  (forall x, f x = false) -> List.filter f l = [].
Proof.
  intros H. induction l as [|z l IH]; simpl; [done|]. by rewrite H.
Qed.

(** X16. Deleting a question takes its answers and its points with it:
    after the owner's [delete_question] the question has no answers left,
    the total points of its quiz have dropped by the question's points, the
    questions of other quizzes and the answers of questions with another id
    are as before. *)
Theorem delete_question_cascade question_id u d i question quiz course :
  Question_find d question_id = Some (i, question) ->
  Quiz_get d (Question.quiz_id question) = Some quiz ->
  Course_get d (Quiz.course_id quiz) = Some course ->
  Course.instructor_id course = User.id u ->
  let d' := snd (delete_question question_id u d) in
  questions d' = delete i (questions d)
  /\ question_answers d' question = []
  /\ total_points (quiz_questions d' (Question.quiz_id question))
     = total_points (quiz_questions d (Question.quiz_id question))
       - Question.points question
  /\ (forall other, other <> Question.quiz_id question ->
                    quiz_questions d' other = quiz_questions d other)
  /\ (forall q, Question.id q <> Question.id question ->
                question_answers d' q = question_answers d q).
Proof.
  intros Hfind Hq Hc Howner d'. subst d'. unfold delete_question.
  rewrite Hfind, Hq, Hc, Howner, Z.eqb_refl. simpl.
  unfold Question_find in Hfind. apply first_Some in Hfind as [Hi _].
  split; [done|]. split; [|split; [|split]].
  - unfold question_answers. simpl. rewrite filter_filter_bool.
    apply filter_none_bool. intros a.
    by destruct (Answer.question_id a =? Question.id question).
  - rewrite !total_points_spec. unfold quiz_questions. simpl.
    rewrite (sum_points_filter_delete _ _ _ _ Hi). by rewrite Z.eqb_refl.
  - intros other Hother. unfold quiz_questions. simpl.
    apply (filter_delete_other _ _ _ _ Hi). apply Z.eqb_neq. congruence.
  - intros q Hne. unfold question_answers. simpl. rewrite filter_filter_bool.
    apply filter_ext_bool. intros a.
    destruct (Z.eqb_spec (Answer.question_id a) (Question.id q)) as [Heq|];
      [|done].
    rewrite Heq. simpl. apply negb_true_iff, Z.eqb_neq. done.
Qed.

Lemma delete_question_cascade_witness :
  Question_find quiz_db 2 = Some (1%nat, Question.mk 2 1 "Second"
                                           "multiple_choice" 3)
  /\ total_points (quiz_questions (snd (delete_question 2 teacher quiz_db)) 1)
     = total_points (quiz_questions quiz_db 1) - 3.
Proof.
  split; [reflexivity|].
  apply (delete_question_cascade 2 teacher quiz_db 1%nat
           (Question.mk 2 1 "Second" "multiple_choice" 3)
           (Quiz.mk 1 1 "Week 1") free_course); reflexivity.
Defined.

(** X17. No answer is left without its question: if every answer belongs
    to a question of the table, this still holds after any of [edit_quiz],
    [edit_question], [delete_question] and [delete_answer], by any user and
    with any form data. *)
Theorem answers_keep_their_questions view u d :
  quiz_edit view ->
  answers_refer_to_questions d ->
  answers_refer_to_questions (snd (view u d)).
Proof.
  intros Hview Hrefer. destruct Hview.
  - unfold edit_quiz.
    destruct (Quiz_get d quiz_id) as [quiz|]; [|done].
    destruct (Course_get d _) as [course|]; [|done].
    destruct (negb _); [done|]. destruct v; [|done].
    assert (forall a, a ∈ answers d ->
              exists q, q ∈ questions d ++
                            [Question.mk (next_id (Question.id <$> questions d))
                               (Quiz.id quiz) text question_type points]
                        /\ Question.id q = Answer.question_id a) as Hold.
    { intros a Ha. destruct (Hrefer a Ha) as (q & Hin & Hid).
      exists q. split; [|done]. apply elem_of_app. by left. }
    destruct (String.eqb question_type "true_false"); simpl; [|exact Hold].
    intros a Ha. apply elem_of_app in Ha as [Ha|Ha]; [by apply Hold|].
    eexists. split; [apply elem_of_app; right; by left|].
    apply elem_of_cons in Ha as [->|Ha]; [done|].
    apply elem_of_cons in Ha as [->|Ha]; [done|].
    by apply elem_of_nil in Ha.
  - unfold edit_question.
    destruct (Question_find d question_id) as [[j question]|] eqn:Hfind;
      [|done].
    destruct (Quiz_get d _) as [quiz|]; [|done].
    destruct (Course_get d _) as [course|]; [|done].
    destruct (negb _); [done|]. destruct (v && negb _); [|done]. simpl.
    intros a Ha. apply elem_of_app in Ha as [Ha|Ha]; [by apply Hrefer|].
    apply elem_of_cons in Ha as [->|Ha]; [|by apply elem_of_nil in Ha].
    exists question. split; [|done]. by eapply first_elem_of.
  - unfold delete_question.
    destruct (Question_find d question_id) as [[j question]|] eqn:Hfind;
      [|done].
    destruct (Quiz_get d _) as [quiz|]; [|done].
    destruct (Course_get d _) as [course|]; [|done].
    destruct (negb _); [done|]. simpl.
    intros a Ha. apply elem_of_filter_bool in Ha as [Ha Hne].
    apply negb_true_iff, Z.eqb_neq in Hne.
    destruct (Hrefer a Ha) as (q & Hin & Hid).
    exists q. split; [|done].
    unfold Question_find in Hfind. apply first_Some in Hfind as [Hj _].
    apply (elem_of_delete_other _ _ _ _ Hin Hj). congruence.
  - unfold delete_answer.
    destruct (Answer_find d answer_id) as [[k answer]|]; [|done].
    destruct (Question_find d _) as [[j question]|]; [|done].
    destruct (Quiz_get d _) as [quiz|]; [|done].
    destruct (Course_get d _) as [course|]; [|done].
    destruct (negb _); [done|]. simpl.
    intros a Ha. simpl in Ha. apply Hrefer.
    eapply elem_of_delete_inv. exact Ha.
Qed.

Lemma answers_keep_their_questions_witness :
  quiz_edit (delete_question 2)
  /\ answers_refer_to_questions quiz_db
  /\ Answer.id <$> answers quiz_db = [1; 2; 3; 4]
  /\ Question.id <$> questions (snd (delete_question 2 teacher quiz_db)) = [1]
  /\ Answer.id <$> answers (snd (delete_question 2 teacher quiz_db)) = [1; 2]
  /\ answers_refer_to_questions (snd (delete_question 2 teacher quiz_db)).
Proof.
  assert (answers_refer_to_questions quiz_db) as H.
  { intros a Ha. vm_compute in Ha.
    repeat (apply elem_of_cons in Ha as [->|Ha]);
      [eexists; split; [left|reflexivity]
      |eexists; split; [left|reflexivity]
      |eexists; split; [right; left|reflexivity]
      |eexists; split; [right; left|reflexivity]
      |by apply elem_of_nil in Ha]. }
  split; [constructor|]. split; [exact H|].
  split; [reflexivity|]. split; [reflexivity|]. split; [reflexivity|].
  exact (answers_keep_their_questions _ teacher _ (is_delete_question 2) H).
Defined.
End QuizDeleting.

(** ** utils.py: file urls and progress *)

Section Utils.
Import Sample.

(** X18. [get_file_url] answers a path under /static/ and is stable: it
    answers [None] exactly for a missing or empty path; any other answer
    starts with "/static/", and formatting an answer again gives the same
    answer (no doubled prefix). *)
Theorem get_file_url_stable file_path :
  (get_file_url file_path = None
   <-> file_path = None \/ file_path = Some "")
  /\ forall url,
       get_file_url file_path = Some url ->
       String.prefix "/static/" url = true
       /\ get_file_url (Some url) = Some url.
Proof.
  unfold get_file_url. destruct file_path as [path|].
  2: { split; [split; auto|done]. }
  destruct (String.eqb_spec path "") as [->|Hne].
  { split; [split; auto|done]. }
  split.
  { split; [|intros [H|[= H]]; done].
    repeat match goal with |- context [if ?c then _ else _] => destruct c end;
      done. }
  assert (forall url, String.prefix "/static/" url = true ->
            String.prefix "/static/" url = true
            /\ (if String.eqb url "" then None
                else if String.prefix "/static/" url then Some url
                else if String.prefix "static/" url then Some ("/" +:+ url)
                else if String.prefix "uploads/" url
                     then Some ("/static/" +:+ url)
                else Some ("/static/uploads/content/" +:+ url)) = Some url)
    as Hstable.
  { intros url Hp. split; [done|]. rewrite Hp.
    destruct (String.eqb_spec url "") as [->|]; [discriminate Hp|done]. }
  intros url.
  destruct (String.prefix "/static/" path) eqn:H1.
  { intros [= <-]. by apply Hstable. }
  destruct (String.prefix "static/" path) eqn:H2.
  { intros [= <-]. apply Hstable. simpl. exact H2. }
  destruct (String.prefix "uploads/" path) eqn:H3.
  { intros [= <-]. apply Hstable. simpl. by destruct path. }
  intros [= <-]. apply Hstable. simpl. by destruct path.
Qed.

Lemma get_file_url_stable_witness :
  get_file_url (Some "uploads/content/a.mp4")
  = Some "/static/uploads/content/a.mp4"
  /\ String.prefix "/static/" "/static/uploads/content/a.mp4" = true
  /\ get_file_url (Some "/static/uploads/content/a.mp4")
     = Some "/static/uploads/content/a.mp4".
Proof.
  split; [reflexivity|].
  apply (proj2 (get_file_url_stable (Some "uploads/content/a.mp4"))).
  reflexivity.
Defined.

(** X19. [calculate_progress] answers a percentage and changes nothing
    else: the new progress lies between 0 and 100, is 0 whenever the course
    has content, is the old progress when the course has none and the old
    progress was already between 0 and 100, and a second call changes
    nothing more. *)
Theorem calculate_progress_clamps course_contents e :
  let e' := calculate_progress course_contents e in
  (0 <= Enrollment.progress e')%Q
  /\ (Enrollment.progress e' <= 100)%Q
  /\ (0 < course_contents -> Enrollment.progress e' = 0%Q)
  /\ (course_contents <= 0 ->
      (0 < Enrollment.progress e)%Q -> (Enrollment.progress e < 100)%Q ->
      e' = e)
  /\ calculate_progress course_contents e' = e'
  /\ Enrollment.expires_at e' = Enrollment.expires_at e
  /\ Enrollment.is_active e' = Enrollment.is_active e.
Proof.
  intros e'. subst e'. unfold calculate_progress. simpl.
  destruct (Z.ltb_spec 0 course_contents) as [Hc|Hc].
  - simpl. repeat split; try done. lia.
  - set (p := Enrollment.progress e).
    destruct (Qle_bool 100 p) eqn:H100; simpl.
    + repeat split; try done; try (intros; lia).
      intros _ _ Hlt. apply Qle_bool_iff in H100.
      exfalso. by apply (Qlt_not_le _ _ Hlt).
    + assert (p < 100)%Q as Hlt.
      { apply Qnot_le_lt. intros H. apply Qle_bool_iff in H. congruence. }
      destruct (Qle_bool p 0) eqn:H0; simpl.
      * repeat split; try done; try (intros; lia).
        intros _ Hpos _. apply Qle_bool_iff in H0.
        exfalso. by apply (Qlt_not_le _ _ Hpos).
      * assert (0 < p)%Q as Hpos.
        { apply Qnot_le_lt. intros H. apply Qle_bool_iff in H. congruence. }
        rewrite H100, H0.
        repeat split; try done; try (intros; lia);
          try (by apply Qlt_le_weak).
        intros _ _ _. subst p. by destruct e.
Qed.

Lemma calculate_progress_clamps_witness :
  0 < 3
  /\ Enrollment.progress (calculate_progress 3 running_enrollment) = 0%Q.
Proof.
  split; [lia|].
  apply (calculate_progress_clamps 3 running_enrollment). lia.
Defined.
End Utils.

(** ** What the requests never undo *)

Section NeverUndone.
Import Sample.

Lemma take_quiz_only_attempts t_started t_completed u quiz_id v f d :
  exists rows,
    snd (take_quiz t_started t_completed u quiz_id v f d) = set_attempts d rows.
Proof.
  assert (d = set_attempts d (attempts d)) as Hsame by (by destruct d).
  unfold take_quiz.
  destruct (Quiz_get d quiz_id) as [quiz|]; [|by eexists].
  destruct (Course_get d _) as [course|]; [|by eexists].
  destruct (negb _ && negb _); [by eexists|].
  destruct (first (open_attempt_of _ _) (attempts d)) as [[i a]|];
    destruct v; try destruct (first (enrollment_of _ _) _); simpl;
    by eexists.
Qed.

Lemma handle_payment_settled d r i p :
  payments d !! i = Some p ->
  String.eqb (Payment.status p) "pending" = false ->
  payments (handle d r) !! i = Some p.
Proof.
  intros Hi Hp. destruct r; simpl.
  - unfold enroll_course.
    destruct (Course_get d _); [|done].
    destruct (Qeq_bool _ _); destruct (first _ _) as [[? e]|];
      try destruct (Enrollment.is_expired e t_first);
      try destruct (Enrollment.is_expired e t_second); done.
  - unfold checkout.
    destruct (Course_get d _); [|done]. by destruct (first _ _).
  - unfold create_checkout_session. by destruct (Course_get d _).
  - unfold payment_success.
    destruct (Course_get d _); [|done].
    destruct (first _ (payments d)) as [[j q]|] eqn:E; [|done]. simpl.
    apply first_Some in E as [Hj Hq].
    rewrite list_lookup_insert_ne; [done|]. intros ->.
    unfold pending_payment_of in Hq. rewrite Hj in Hi. injection Hi as ->.
    rewrite Hp in Hq. by rewrite andb_false_r in Hq.
  - done.
  - destruct (take_quiz_only_attempts t_started t_completed current_user
                quiz_id validate_on_submit f d) as [rows ->]. done.
Qed.

(** X20. A settled payment is final: a payment whose status is not
    'pending' (completed or failed) is left unchanged by every sequence of
    the modelled requests, and by [payment_cancel]. *)
Theorem settled_payment_final :
  (forall rs d i p,
      payments d !! i = Some p ->
      Payment.status p <> "pending" ->
      payments (run rs d) !! i = Some p)
  /\ (forall u course_id d i p,
        payments d !! i = Some p ->
        Payment.status p <> "pending" ->
        payments (snd (payment_cancel u course_id d)) !! i = Some p).
Proof.
  split.
  - intros rs d i p Hi Hp. apply String.eqb_neq in Hp.
    unfold run. revert d Hi.
    induction rs as [|r rs IH]; intros d Hi; simpl; [done|].
    apply IH. by apply handle_payment_settled.
  - intros u course_id d i p Hi Hp. apply String.eqb_neq in Hp.
    unfold payment_cancel.
    destruct (Course_get d _); [|done].
    destruct (first _ (payments d)) as [[j q]|] eqn:E; [|done]. simpl.
    apply first_Some in E as [Hj Hq].
    rewrite list_lookup_insert_ne; [done|]. intros ->.
    unfold pending_payment_of in Hq. rewrite Hj in Hi. injection Hi as ->.
    rewrite Hp in Hq. by rewrite andb_false_r in Hq.
Qed.

Lemma settled_payment_final_witness :
  payments (snd (payment_success 3000 alice 2 paying_db)) !! O
  = Some (Payment.set_status pending_payment "completed")
  /\ payments
       (run [PaymentSuccess 3001 alice 2;
             CreateCheckoutSession alice 2;
             PaymentSuccess 3003 alice 2]
            (snd (payment_success 3000 alice 2 paying_db))) !! O
     = Some (Payment.set_status pending_payment "completed").
Proof.
  split; [reflexivity|].
  apply (proj1 settled_payment_final); [reflexivity|discriminate].
Defined.

Lemma same_enrollment_refl e : same_enrollment e e.
Proof. by repeat split. Qed.

Lemma handle_enrollment_kept d r i e :
  enrollments d !! i = Some e ->
  exists e', enrollments (handle d r) !! i = Some e' /\ same_enrollment e e'.
Proof.
  intros Hi.
  assert (exists e', enrollments d !! i = Some e' /\ same_enrollment e e')
    as Hsame by (exists e; split; [done|apply same_enrollment_refl]).
  assert (forall x, exists e',
             (enrollments d ++ [x]) !! i = Some e' /\ same_enrollment e e')
    as Happ.
  { intros x. exists e. split; [by apply lookup_app_l_Some|].
    apply same_enrollment_refl. }
  destruct r; simpl.
  - unfold enroll_course.
    destruct (Course_get d _); [|done].
    destruct (Qeq_bool _ _); destruct (first _ _) as [[? e0]|];
      try destruct (Enrollment.is_expired e0 t_first);
      try destruct (Enrollment.is_expired e0 t_second); simpl;
      done || apply Happ.
  - unfold checkout.
    destruct (Course_get d _); [|done]. by destruct (first _ _).
  - unfold create_checkout_session. by destruct (Course_get d _).
  - unfold payment_success.
    destruct (Course_get d _); [|done].
    destruct (first _ (payments d)) as [[j q]|]; [|done]. simpl.
    apply Happ.
  - destruct (decide (row = i)) as [->|Hne].
    + eexists. rewrite list_lookup_alter_eq, Hi. simpl.
      split; [done|]. by repeat split.
    + exists e. rewrite list_lookup_alter_ne by done.
      split; [done|apply same_enrollment_refl].
  - destruct (take_quiz_only_attempts t_started t_completed current_user
                quiz_id validate_on_submit f d) as [rows ->]. done.
Qed.

(** X21. No request removes, reassigns or deactivates an enrollment:
    after any sequence of the modelled requests an enrollment row is still
    at its position with the same key, student, course and enrollment date,
    and is still active if it was. *)
Theorem enrollment_never_undone rs d i e :
  enrollments d !! i = Some e ->
  exists e',
    enrollments (run rs d) !! i = Some e' /\ same_enrollment e e'.
Proof.
  unfold run. revert d e.
  induction rs as [|r rs IH]; intros d e Hi; simpl.
  - exists e. split; [done|apply same_enrollment_refl].
  - destruct (handle_enrollment_kept d r i e Hi) as (e1 & H1 & Hs1).
    destruct (IH _ _ H1) as (e2 & H2 & Hs2).
    exists e2. split; [done|].
    destruct Hs1 as (? & ? & ? & ? & ?), Hs2 as (? & ? & ? & ? & ?).
    repeat split; try congruence. auto.
Qed.

Lemma enrollment_never_undone_witness :
  enrollments quiz_db !! O = Some alice_in_free_course
  /\ exists e',
       enrollments
         (run [EnrollCourse 2000 2001 2002 alice 1;
               RenewSubscription 0 30 3000 3001 3002;
               TakeQuiz 4000 4001 alice 1 true only_second_right]
              quiz_db) !! O = Some e'
       /\ same_enrollment alice_in_free_course e'.
Proof.
  split; [reflexivity|].
  apply (enrollment_never_undone _ quiz_db O alice_in_free_course).
  reflexivity.
Defined.
End NeverUndone.
